(** * canvas_auto_downloader: link classification, resolution and download

    A shallow embedding of [canvas_auto_downloader.py] and the properties of
    its link pipeline.

    Modelling conventions.
    - A Python [str] and a Python [bytes] are both a [list ascii]; the
      character-level library functions ([lower], [strip], [isdigit], [\d])
      are modelled on the ASCII range, code points above 127 are uncased,
      not digits and not white space.
    - [os.path] is [posixpath].
    - [BeautifulSoup] is outside the repository: a parsed document is the
      list of its [<a>] elements in document order, and a tag object is the
      position of its element in that list.
    - [requests] is outside the repository: a session is a function from
      the requests made so far and a URL to either an exception or a
      response.
    - The file system is a finite map from paths to file contents;
      directories are not tracked, [os.makedirs] is modelled by the one
      outcome that reaches the code, the exception on an empty path, and
      opening a file for writing always succeeds.
    - [print] appends a line to the console; [tqdm] and [time.sleep] have
      no effect on what is modelled.
    - A file is named by its path string: two strings that the operating
      system resolves to one file (through [.], [..] or a link) are two
      keys here, and a path exists when a file is stored under it.
    - The body of a wiki page enters the transformer after the pattern has
      matched and the unescaping and the parser have run; a page text on
      which the unescaping raises is not covered. *)

From Stdlib Require Import Ascii String DecimalString.
From stdpp Require Import gmap strings list fin_maps.

Local Open Scope list_scope.

(** ** Strings *)

Abbreviation str := (list ascii).

Definition lit (s : string) : str := list_ascii_of_string s.
Arguments lit : simpl never.

Module Py.

Definition lower_char (c : ascii) : ascii :=
  let n := nat_of_ascii c in
  if (65 <=? n) && (n <=? 90) then ascii_of_nat (n + 32) else c.

(** [s.lower()] *)
Definition lower (s : str) : str := map lower_char s.

Definition is_digit (c : ascii) : bool :=
  let n := nat_of_ascii c in (48 <=? n) && (n <=? 57).

(** [str.isspace] on the ASCII range: TAB, LF, VT, FF, CR, FS, GS, RS, US
    and the space. *)
Definition is_space (c : ascii) : bool :=
  let n := nat_of_ascii c in
  ((9 <=? n) && (n <=? 13)) || ((28 <=? n) && (n <=? 32)).

Definition eqc (a b : ascii) : bool := Ascii.eqb a b.

(** [s.startswith(p)] *)
Fixpoint startswith (s p : str) {struct p} : bool :=
  match p, s with
  | [], _ => true
  | _ :: _, [] => false
  | b :: p', a :: s' => eqc a b && startswith s' p'
  end.

(** [s.endswith(p)] *)
Definition endswith (s p : str) : bool := startswith (rev s) (rev p).

(** [sub in s] *)
Fixpoint contains (sub s : str) : bool :=
  startswith s sub ||
  match s with
  | [] => false
  | _ :: s' => contains sub s'
  end.

(** [c in s] for a single character *)
Definition has_char (c : ascii) (s : str) : bool := existsb (eqc c) s.

Fixpoint take_while (p : ascii -> bool) (s : str) : str :=
  match s with
  | [] => []
  | a :: s' => if p a then a :: take_while p s' else []
  end.

Fixpoint drop_while (p : ascii -> bool) (s : str) : str :=
  match s with
  | [] => []
  | a :: s' => if p a then drop_while p s' else s
  end.

Definition lstrip (s : str) : str := drop_while is_space s.
Definition rstrip (s : str) : str := rev (drop_while is_space (rev s)).

(** [s.strip()] *)
Definition strip (s : str) : str := rstrip (lstrip s).

(** [s.isdigit()]: non-empty and all digits *)
Definition isdigit (s : str) : bool :=
  match s with [] => false | _ => forallb is_digit s end.

(** [s.split(c)[0]]: the part before the first [c] *)
Definition split_head (c : ascii) (s : str) : str :=
  take_while (fun a => negb (eqc a c)) s.

(** [s.split(c)[-1]]: the part after the last [c] *)
Definition split_last (c : ascii) (s : str) : str :=
  rev (take_while (fun a => negb (eqc a c)) (rev s)).

(** [len(s.split(c))] *)
Definition split_count (c : ascii) (s : str) : nat :=
  S (length (List.filter (fun a => eqc a c) s)).

(** [s.rstrip('/')] *)
Definition rstrip_slash (s : str) : str :=
  rev (drop_while (eqc "/"%char) (rev s)).

(** [posixpath.basename]: [p[p.rfind('/')+1:]] *)
Definition basename (p : str) : str := split_last "/"%char p.

(** [posixpath.dirname]: the head up to and including the last slash,
    with its trailing slashes removed unless it consists of slashes only. *)
Definition dirname (p : str) : str :=
  let head := rev (drop_while (fun a => negb (eqc a "/"%char)) (rev p)) in
  if forallb (eqc "/"%char) head then head else rstrip_slash head.

(** [posixpath.join(a, b)] *)
Definition join (a b : str) : str :=
  if startswith b (lit "/") then b
  else if match a with [] => true | _ => endswith a (lit "/") end then a ++ b
  else a ++ lit "/" ++ b.

(** [posixpath.splitext(p)[1]]: from the last dot of the base name, unless
    only dots precede it there. *)
Definition splitext_ext (p : str) : str :=
  let base := basename p in
  if has_char "."%char base then
    let stem := rev (drop 1 (drop_while (fun a => negb (eqc a "."%char)) (rev base))) in
    if forallb (eqc "."%char) stem then []
    else "."%char :: split_last "."%char base
  else [].

End Py.

(** ** Regular expressions, as far as the patterns of the program need them *)

Inductive regex : Type :=
| RNone                       (* matches nothing *)
| REps                        (* the empty pattern *)
| RChr (c : ascii)            (* a literal character, escaped or not *)
| RDigit                      (* [\d] *)
| RDot                        (* [.]: any character but a newline *)
| RSeq (r1 r2 : regex)
| RAlt (r1 r2 : regex)
| RStar (r : regex).

(** [r+] *)
Definition RPlus (r : regex) : regex := RSeq r (RStar r).

(** A literal run of characters *)
Fixpoint RLit (s : str) : regex :=
  match s with
  | [] => REps
  | c :: s' => RSeq (RChr c) (RLit s')
  end.

(** The language of a pattern. *)
Inductive matches : regex -> str -> Prop :=
| m_eps : matches REps []
| m_chr c : matches (RChr c) [c]
| m_digit c : Py.is_digit c = true -> matches RDigit [c]
| m_dot c : c <> "010"%char -> matches RDot [c]
| m_seq r1 r2 s1 s2 :
    matches r1 s1 -> matches r2 s2 -> matches (RSeq r1 r2) (s1 ++ s2)
| m_alt_l r1 r2 s : matches r1 s -> matches (RAlt r1 r2) s
| m_alt_r r1 r2 s : matches r2 s -> matches (RAlt r1 r2) s
| m_star_nil r : matches (RStar r) []
| m_star_cons r s1 s2 :
    matches r s1 -> matches (RStar r) s2 -> matches (RStar r) (s1 ++ s2).

Fixpoint nullable (r : regex) : bool :=
  match r with
  | RNone | RChr _ | RDigit | RDot => false
  | REps | RStar _ => true
  | RSeq r1 r2 => nullable r1 && nullable r2
  | RAlt r1 r2 => nullable r1 || nullable r2
  end.

(** The derivative of a pattern by a character. *)
Fixpoint deriv (c : ascii) (r : regex) : regex :=
  match r with
  | RNone | REps => RNone
  | RChr d => if Py.eqc c d then REps else RNone
  | RDigit => if Py.is_digit c then REps else RNone
  | RDot => if Py.eqc c "010"%char then RNone else REps
  | RSeq r1 r2 =>
      if nullable r1
      then RAlt (RSeq (deriv c r1) r2) (deriv c r2)
      else RSeq (deriv c r1) r2
  | RAlt r1 r2 => RAlt (deriv c r1) (deriv c r2)
  | RStar r1 => RSeq (deriv c r1) (RStar r1)
  end.

(** [re.match(r, s) is not None]: some prefix of [s] is in the language. *)
Fixpoint re_match (r : regex) (s : str) : bool :=
  nullable r ||
  match s with
  | [] => false
  | c :: s' => re_match (deriv c r) s'
  end.

(** [re.search(r, s) is not None]: a match starts at some position. *)
Fixpoint re_search (r : regex) (s : str) : bool :=
  re_match r s ||
  match s with
  | [] => false
  | _ :: s' => re_search r s'
  end.

(** ** The link classifier: [is_downloadable_file] *)

Definition BASE_URL : str := lit "https://thomasmore.instructure.com".

Definition downloadable_extensions : list str :=
  map lit
    [ ".pdf"; ".doc"; ".docx"; ".ppt"; ".pptx"; ".xls"; ".xlsx";
      ".zip"; ".rar"; ".7z"; ".tar"; ".gz";
      ".jpg"; ".jpeg"; ".png"; ".gif"; ".bmp"; ".svg";
      ".mp3"; ".mp4"; ".avi"; ".mov"; ".wav";
      ".txt"; ".csv"; ".json"; ".xml"; ".html"; ".css"; ".js";
      ".py"; ".java"; ".cpp"; ".c"; ".h";
      ".sql"; ".db"; ".sqlite"; ".rtf"; ".odt"; ".ods"; ".odp" ]%string.

(** The test of one extension in the first loop:
    [url_lower.endswith(ext) or f'{ext}?' in url_lower or f'{ext}#' in url_lower] *)
Definition url_has_extension (url_lower ext : str) : bool :=
  Py.endswith url_lower ext
  || Py.contains (ext ++ lit "?") url_lower
  || Py.contains (ext ++ lit "#") url_lower.

Definition digits : regex := RPlus RDigit.

Fixpoint RCat (rs : list regex) : regex :=
  match rs with
  | [] => REps
  | [r] => r
  | r :: rs' => RSeq r (RCat rs')
  end.

Definition canvas_file_patterns : list regex :=
  [ (* /courses/\d+/files/\d+ *)
    RCat [RLit (lit "/courses/"); digits; RLit (lit "/files/"); digits];
    (* /files/\d+ *)
    RCat [RLit (lit "/files/"); digits];
    (* /download\?download_frd=1 *)
    RLit (lit "/download?download_frd=1");
    (* /courses/\d+/file_contents/ *)
    RCat [RLit (lit "/courses/"); digits; RLit (lit "/file_contents/")];
    (* /users/\d+/files/\d+ *)
    RCat [RLit (lit "/users/"); digits; RLit (lit "/files/"); digits];
    (* instructure\.com.*files *)
    RCat [RLit (lit "instructure.com"); RStar RDot; RLit (lit "files")] ].

Definition file_indicators : list str :=
  map lit
    [ "download"; "attachment"; "file"; ".pdf"; ".doc"; ".ppt"; ".xls";
      "handout"; "worksheet"; "assignment"; "syllabus"; "slides" ]%string.

Definition non_file_indicators : list str :=
  map lit
    [ "http://www."; "https://www."; "wiki"; "page"; "module";
      "discussion"; "assignment submission"; "grade"; "course" ]%string.

Definition is_downloadable_file (url text : str) : bool :=
  let url_lower := Py.lower url in
  if existsb (url_has_extension url_lower) downloadable_extensions then true
  else if existsb (fun pattern => re_search pattern url) canvas_file_patterns then true
  else
    let text_lower := Py.lower text in
    if existsb (fun indicator => Py.contains indicator text_lower) file_indicators then true
    else if existsb
              (fun indicator =>
                 Py.contains indicator text_lower
                 && negb (existsb (fun ext => Py.contains ext url_lower)
                                  downloadable_extensions))
              non_file_indicators
    then false
    else false.

(** ** The filename resolver: [get_filename_from_url_or_text] *)

(** The character class of the sanitising substitution: backslash, slash,
    star, question mark, colon, double quote, angle brackets and bar. *)
Definition illegal_char (c : ascii) : bool :=
  existsb (Py.eqc c)
    [ "\"; "/"; "*"; "?"; ":"; "034"; "<"; ">"; "|" ]%char.

(** [re.sub] of that class by the empty string *)
Definition sanitize (filename : str) : str :=
  List.filter (fun c => negb (illegal_char c)) filename.

(** [url.split('?')[0]] when the URL has a query, the URL otherwise *)
Definition strip_query (url : str) : str :=
  if Py.has_char "?"%char url then Py.split_head "?"%char url else url.

(** The test that sends the resolver to the anchor text:
    [not filename or filename.isdigit() or not '.' in filename] *)
Definition unusable (filename : str) : bool :=
  match filename with [] => true | _ => false end
  || Py.isdigit filename
  || negb (Py.has_char "."%char filename).

(** The anchor text, stripped, without a leading [download ] *)
Definition text_fallback (text : str) : str :=
  let filename := Py.strip text in
  if Py.startswith (Py.lower filename) (lit "download ")
  then drop 9 filename
  else filename.

(** The guess of an extension from the URL, lines 305 to 310. *)
Definition guess_extension (filename url_path : str) : str :=
  if negb (Py.has_char "."%char filename) && Py.has_char "."%char url_path then
    if 1 <? Py.split_count "."%char url_path then
      let ext := "."%char :: Py.split_last "."%char url_path in
      if length ext <=? 5 then filename ++ ext else filename
    else filename
  else filename.

Definition or_default (filename : str) : str :=
  match filename with [] => lit "downloaded_file" | _ => filename end.

Definition get_filename_from_url_or_text (url text : str) : str :=
  let url_path := strip_query url in
  let filename := Py.basename url_path in
  let filename :=
    if unusable filename
    then guess_extension (text_fallback text) url_path
    else filename in
  or_default (sanitize filename).

(** ** The content validator: [validate_file_content] *)

Fixpoint streq (a b : str) : bool :=
  match a, b with
  | [], [] => true
  | x :: a', y :: b' => Py.eqc x y && streq a' b'
  | _, _ => false
  end.

Definition zip_signatures : list str :=
  [ ["P"; "K"; "003"; "004"]; ["P"; "K"; "005"; "006"];
    ["P"; "K"; "007"; "008"] ]%char.

Definition jpeg_signature : str := ["255"; "216"; "255"]%char.

Definition png_signature : str :=
  ["137"; "P"; "N"; "G"; "013"; "010"; "026"; "010"]%char.

(** The checks on the header that was read, lines 170 to 197. *)
Definition check_header (header expected_extension : str) : bool * str :=
  let ext := Py.lower expected_extension in
  let low := Py.lower header in
  let early : option (bool * str) :=
    if streq ext (lit ".pdf") then
      if negb (Py.startswith header (lit "%PDF-")) then
        if Py.contains (lit "<html") low || Py.contains (lit "<!doctype") low
        then Some (false, lit "Downloaded HTML instead of PDF")
        else Some (false, lit "Not a valid PDF file")
      else None
    else if existsb (streq ext) (map lit [".zip"; ".rar"; ".7z"]%string) then
      if negb (existsb (Py.startswith header) zip_signatures) then
        if Py.contains (lit "<html") low
        then Some (false, lit "Downloaded HTML instead of archive")
        else Some (false, lit "Not a valid archive file")
      else None
    else if existsb (streq ext) (map lit [".jpg"; ".jpeg"]%string) then
      if negb (Py.startswith header jpeg_signature) then
        if Py.contains (lit "<html") low
        then Some (false, lit "Downloaded HTML instead of image")
        else Some (false, lit "Not a valid JPEG file")
      else None
    else if streq ext (lit ".png") then
      if negb (Py.startswith header png_signature) then
        if Py.contains (lit "<html") low
        then Some (false, lit "Downloaded HTML instead of image")
        else Some (false, lit "Not a valid PNG file")
      else None
    else None in
  match early with
  | Some verdict => verdict
  | None =>
      if Py.contains (lit "<html") low || Py.contains (lit "<!doctype") low
      then (false, lit "Downloaded HTML instead of expected file type")
      else (true, lit "File appears valid")
  end.

(** ** Effects: exceptions, the network, the file system, the console *)

Inductive exn : Type :=
| ConnectionError      (* [requests]: the request could not be made *)
| HTTPError            (* [raise_for_status] on a 4xx or 5xx answer *)
| ChunkedEncodingError (* [requests]: the body broke off while streaming *)
| ValueError           (* [int] on a malformed header *)
| KeyError             (* a tag without the attribute asked for *)
| FileNotFoundError.   (* [os.makedirs] on the empty path *)

(** The text of an exception, [f"{e}"]. *)
Definition exn_str (e : exn) : str :=
  match e with
  | ConnectionError => lit "connection failed"
  | HTTPError => lit "HTTP error"
  | ChunkedEncodingError => lit "connection broken"
  | ValueError => lit "invalid literal for int()"
  | KeyError => lit "'href'"
  | FileNotFoundError => lit "[Errno 2] No such file or directory: ''"
  end.

Inductive result (A : Type) : Type :=
| Ok (a : A)
| Raise (e : exn).
Arguments Ok {A} a.
Arguments Raise {A} e.

(** An [<a>] element: its [href] and [download] attributes when present,
    and its text. *)
Record anchor : Type := Anchor {
  a_href : option str;
  a_download : option str;
  a_text : str
}.

Abbreviation soup := (list anchor).

(** What the program looks at in a response: the status, the URL after
    redirects, the anchors of the parsed text, the wiki body that
    [parse_canvas_page_content_and_downloads] extracts from the text (when
    the pattern finds one; already unescaped and parsed), whether the
    [content-length] header reads as an integer, the chunks of the streamed
    body, and the exception that ends the stream early, if one does. *)
Record response : Type := Response {
  r_status : nat;
  r_url : str;
  r_soup : soup;
  r_body : option soup;
  r_length_ok : bool;
  r_chunks : list str;
  r_stream_exn : option exn
}.

(** A session answers a GET with a response or with an exception; the
    answer may depend on the requests made before it (the first argument,
    oldest first) as well as on the URL. *)
Definition session : Type := list str -> str -> result response.

Record world : Type := World {
  w_fs : gmap str str;       (* the files on disk *)
  w_requests : list str;     (* the URLs requested so far, oldest first *)
  w_stdout : list str        (* the lines printed so far, oldest first *)
}.

(** Computations over the world that may raise. The world at the moment of
    the exception is kept, as Python keeps the effects made before it. *)
Definition M (A : Type) : Type := world -> result A * world.

Definition ret {A} (a : A) : M A := fun w => (Ok a, w).

Definition bind {A B} (m : M A) (k : A -> M B) : M B :=
  fun w =>
    match m w with
    | (Ok a, w') => k a w'
    | (Raise e, w') => (Raise e, w')
    end.

Definition raise {A} (e : exn) : M A := fun w => (Raise e, w).

(** [try: m  except Exception as e: handler e] *)
Definition try_except {A} (m : M A) (handler : exn -> M A) : M A :=
  fun w =>
    match m w with
    | (Ok a, w') => (Ok a, w')
    | (Raise e, w') => handler e w'
    end.

Notation "'do' x <- m ; k" := (bind m (fun x => k))
  (at level 10, x name, m at level 100, k at level 200, only parsing).
Notation "'do_' m ; k" := (bind m (fun _ => k))
  (at level 10, m at level 100, k at level 200, only parsing).

Definition print (line : str) : M unit :=
  fun w => (Ok tt, World (w_fs w) (w_requests w) (w_stdout w ++ [line])).

(** [session.get(url)] *)
Definition session_get (s : session) (url : str) : M response :=
  fun w =>
    let w' := World (w_fs w) (w_requests w ++ [url]) (w_stdout w) in
    match s (w_requests w) url with
    | Ok r => (Ok r, w')
    | Raise e => (Raise e, w')
    end.

(** A status for which [raise_for_status] raises: 4xx and 5xx. *)
Definition status_error (r : response) : bool :=
  (400 <=? r_status r) && (r_status r <? 600).

(** [response.raise_for_status()] *)
Definition raise_for_status (r : response) : M unit :=
  if status_error r then raise HTTPError else ret tt.

(** [os.path.exists(path)] *)
Definition path_exists (path : str) : M bool :=
  fun w => (Ok (bool_decide (is_Some (w_fs w !! path))), w).

(** [os.makedirs(path, exist_ok=True)] *)
Definition makedirs (path : str) : M unit :=
  match path with
  | [] => raise FileNotFoundError
  | _ => ret tt
  end.

(** [open(path, 'wb')]: the file is created or truncated. *)
Definition open_wb (path : str) : M unit :=
  fun w => (Ok tt, World (<[path := []]> (w_fs w)) (w_requests w) (w_stdout w)).

(** [f.write(chunk)] *)
Definition write_chunk (path chunk : str) : M unit :=
  fun w =>
    let old := default [] (w_fs w !! path) in
    (Ok tt, World (<[path := old ++ chunk]> (w_fs w)) (w_requests w) (w_stdout w)).

(** [open(path, 'rb').read(n)] *)
Definition read_head (path : str) (n : nat) : M str :=
  fun w =>
    match w_fs w !! path with
    | Some content => (Ok (take n content), w)
    | None => (Raise FileNotFoundError, w)
    end.

(** [a['href']] *)
Definition get_item_href (a : anchor) : result str :=
  match a_href a with
  | Some h => Ok h
  | None => Raise KeyError
  end.

(** [soup.find('a', attrs={'download': 'true'})] *)
Definition find_download_true (page : soup) : option anchor :=
  List.find
    (fun a => match a_download a with
              | Some v => streq v (lit "true")
              | None => false
              end)
    page.

(** The step [if url.startswith("/"): url = BASE_URL + url] *)
Definition absolutize (href : str) : str :=
  if Py.startswith href (lit "/") then BASE_URL ++ href else href.

Definition download_marker : str := lit "/download?download_frd=1".

(** ** The redirect resolver: [resolve_canvas_file_url] *)

(** The first anchor with an [href] that carries the download marker, the
    second search of the resolver. *)
Definition find_marked_href (page : soup) : option str :=
  match List.find
          (fun a => match a_href a with
                    | Some h => Py.contains download_marker h
                    | None => false
                    end)
          page with
  | Some a => a_href a
  | None => None
  end.

(** [download_link and download_link.get('href')]: an [href] that is
    present and not the empty string. *)
Definition truthy_href (a : anchor) : option str :=
  match a_href a with
  | Some (c :: h) => Some (c :: h)
  | _ => None
  end.

(** Lines 131 to 156: the URL chosen once the answer is in. *)
Definition pick_download_url (response : response) (url : str) : str :=
  let final_url := r_url response in
  if Py.contains download_marker final_url then final_url
  else if Py.contains (lit "instructure.com") final_url
          && (Py.contains (lit "/files/") final_url
              || Py.contains (lit "/courses/") final_url)
  then
    match
      match find_download_true (r_soup response) with
      | Some download_link => truthy_href download_link
      | None => None
      end
    with
    | Some download_url => absolutize download_url
    | None =>
        match find_marked_href (r_soup response) with
        | Some download_url => absolutize download_url
        | None => url
        end
    end
  else url.

(** The body of the [try] block. *)
Definition resolve_probe (s : session) (url : str) : M str :=
  do response <- session_get s url;
  do_ raise_for_status response;
  ret (pick_download_url response url).

Definition resolve_canvas_file_url (s : session) (url : str) : M str :=
  try_except (resolve_probe s url)
    (fun e =>
       do_ print (lit "          Warning: Could not resolve Canvas file URL "
                  ++ url ++ lit ": " ++ exn_str e);
       ret url).

(** ** The validator on a file and the downloader *)

Definition validate_file_content (file_path expected_extension : str)
  : M (bool * str) :=
  try_except
    (do header <- read_head file_path 1024;
     ret (check_header header expected_extension))
    (fun e => ret (false, lit "Could not validate file: " ++ exn_str e)).

(** The loop over [r.iter_content]: the chunks that arrive are written,
    then the stream ends, with an exception when it broke off. *)
Fixpoint write_chunks (save_path : str) (chunks : list str) (stream_exn : option exn)
  : M unit :=
  match chunks with
  | [] => match stream_exn with Some e => raise e | None => ret tt end
  | chunk :: rest =>
      do_ write_chunk save_path chunk;
      write_chunks save_path rest stream_exn
  end.

(** The body of the [try] block of [download_file]. *)
Definition fetch_and_validate (s : session) (resolved_url save_path : str) : M unit :=
  do r <- session_get s resolved_url;
  do_ raise_for_status r;
  do_ (if r_length_ok r then ret tt else raise ValueError);
  do_ open_wb save_path;
  do_ write_chunks save_path (r_chunks r) (r_stream_exn r);
  let file_extension := Py.splitext_ext save_path in
  do verdict <- validate_file_content save_path file_extension;
  let '(is_valid, message) := verdict in
  if is_valid
  then print (lit "Downloaded: " ++ Py.basename save_path)
  else print (lit "Downloaded: " ++ Py.basename save_path
              ++ lit " - Warning: " ++ message).

Definition download_file (s : session) (url save_path : str) : M unit :=
  do_ makedirs (Py.dirname save_path);
  do present <- path_exists save_path;
  if present then print (lit "Already downloaded: " ++ Py.basename save_path)
  else
    do_ print (lit "          Resolving URL: " ++ url);
    do resolved_url <- resolve_canvas_file_url s url;
    do_ print (lit "          Resolved to: " ++ resolved_url);
    try_except (fetch_and_validate s resolved_url save_path)
      (fun e =>
         print (lit "Error downloading " ++ Py.basename save_path
                ++ lit ": " ++ exn_str e)).

(** ** Finding the download link of a file page: [parse_file_download_link] *)

(** The test that skips an anchor:
    [not href or href.startswith('#') or href.startswith('mailto:')] *)
Definition skip_href (href : str) : bool :=
  match href with [] => true | _ => false end
  || Py.startswith href (lit "#")
  || Py.startswith href (lit "mailto:").

(** The loop over [soup.find_all('a', href=True)], lines 102 to 121. *)
Fixpoint scan_for_file (anchors : soup) : option (str * str) :=
  match anchors with
  | [] => None
  | a :: rest =>
      match a_href a with
      | None => scan_for_file rest
      | Some href =>
          let text := Py.strip (a_text a) in
          if skip_href href then scan_for_file rest
          else
            let full_url := absolutize href in
            if is_downloadable_file full_url text
            then Some (get_filename_from_url_or_text full_url text, full_url)
            else scan_for_file rest
      end
  end.

(** The anchor marked [download="true"], lines 89 to 98, when its [href]
    carries the marker. Reading the [href] of such an anchor raises when it
    has none. *)
Definition traditional_link (page : soup) : result (option (str * str)) :=
  match find_download_true page with
  | None => Ok None
  | Some a =>
      match get_item_href a with
      | Raise e => Raise e
      | Ok href =>
          if Py.contains download_marker href then
            let file_url := absolutize href in
            let file_name := Py.strip (a_text a) in
            let file_name :=
              if Py.startswith (Py.lower file_name) (lit "download ")
              then drop 8 file_name else file_name in
            Ok (Some (Py.strip file_name, file_url))
          else Ok None
      end
  end.

(** [None, None] is [None]; a pair of a name and a URL is [Some]. *)
Definition parse_file_download_link (page : soup) : result (option (str * str)) :=
  match traditional_link page with
  | Raise e => Raise e
  | Ok (Some found) => Ok (Some found)
  | Ok None => Ok (scan_for_file page)
  end.

(** ** The page content transformer: [parse_canvas_page_content_and_downloads] *)

(** An entry of [download_links]; the tag is the position of the anchor in
    the parsed body. *)
Record link : Type := Link {
  l_name : str;
  l_url : str;
  l_tag : nat;
  l_original_href : str
}.

Definition str_of_nat (n : nat) : str :=
  lit (DecimalString.NilZero.string_of_uint (Nat.to_uint n)).

(** The first loop, lines 331 to 355, from position [i] of the body on. *)
Fixpoint scan_links (i : nat) (anchors : soup)
    (download_links : list link) (all_links_count : nat)
  : M (list link * nat) :=
  match anchors with
  | [] => ret (download_links, all_links_count)
  | a :: rest =>
      match a_href a with
      | None => scan_links (S i) rest download_links all_links_count
      | Some href =>
          let text := Py.strip (a_text a) in
          let all_links_count := S all_links_count in
          if skip_href href
          then scan_links (S i) rest download_links all_links_count
          else
            let full_url := absolutize href in
            if is_downloadable_file full_url text then
              let filename := get_filename_from_url_or_text full_url text in
              do_ print (lit "          Found downloadable link: " ++ take 50 text
                         ++ lit "... -> " ++ full_url);
              scan_links (S i) rest
                (download_links ++ [Link filename full_url i href])
                all_links_count
            else scan_links (S i) rest download_links all_links_count
      end
  end.

(** [a_tag['href'] = name] on the tag at position [i] *)
Definition set_href (page : soup) (i : nat) (name : str) : soup :=
  alter (fun a => Anchor (Some name) (a_download a) (a_text a)) i page.

(** The second loop, lines 360 to 370. *)
Fixpoint download_links_loop (s : session) (download_dir : str)
    (links : list link) (page : soup) : M soup :=
  match links with
  | [] => ret page
  | l :: rest =>
      let local_path := Py.join download_dir (l_name l) in
      do page' <-
        try_except
          (do_ print (lit "          Downloading linked file: " ++ l_name l);
           do_ download_file s (l_url l) local_path;
           ret (set_href page (l_tag l) (l_name l)))
          (fun e =>
             do_ print (lit "          Error downloading linked file "
                        ++ l_name l ++ lit ": " ++ exn_str e);
             ret page);
      download_links_loop s download_dir rest page'
  end.

(** The transformer up to the markup it serialises. [body] is what the
    pattern for the wiki body, the unescaping and the parser give on the
    page text, [None] when the pattern does not match. *)
Definition transform_body (body : option soup) (download_dir : str) (s : session)
  : M (option soup) :=
  match body with
  | None =>
      do_ print (lit "          Warning: Could not find WIKI_PAGE body in page HTML.");
      ret None
  | Some page =>
      do found <- scan_links 0 page [] 0;
      let '(download_links, all_links_count) := found in
      do_ print (lit "          Found " ++ str_of_nat (length download_links)
                 ++ lit " downloadable links out of " ++ str_of_nat all_links_count
                 ++ lit " total links");
      do page' <- download_links_loop s download_dir download_links page;
      ret (Some page')
  end.

(** [html2text] is outside the repository; it is a parameter. *)
Definition parse_canvas_page_content_and_downloads
    (html2text : soup -> str) (body : option soup) (download_dir : str) (s : session)
  : M (option str) :=
  do out <- transform_body body download_dir s;
  ret (option_map html2text out).

(** ** One module item, the body of the innermost loop of [main] *)

Definition DOWNLOAD_DIR : str := lit "CanvasDownloads".

Record module_item : Type := ModuleItem { title : str; url : str }.

Definition get_module_item_page (s : session) (item_url : str) : M response :=
  do resp <- session_get s item_url;
  do_ raise_for_status resp;
  ret resp.

(** [open(save_path, "w").write(text)] *)
Definition write_text (save_path text : str) : M unit :=
  do_ open_wb save_path; write_chunk save_path text.

Definition nonempty (s : str) : bool :=
  match s with [] => false | _ => true end.

(** Lines 401 to 433. Only [requests.HTTPError] is caught around the fetch
    of the item page. [course_name] and [module_name] are the sanitised
    names of the enclosing loops. *)
Definition process_item (html2text : soup -> str) (s : session)
    (course_name module_name : str) (item : module_item) : M unit :=
  do_ print (lit "      Processing module item: " ++ title item);
  fun w =>
    match get_module_item_page s (url item) w with
    | (Raise HTTPError, w') =>
        print (lit "        Failed to fetch module item page: " ++ exn_str HTTPError) w'
    | (Raise e, w') => (Raise e, w')
    | (Ok page_html, w') =>
        let redirected_url := r_url page_html in
        let module_dir := Py.join (Py.join DOWNLOAD_DIR course_name) module_name in
        match parse_file_download_link (r_soup page_html) with
        | Raise e => (Raise e, w')
        | Ok parsed =>
            match
              match parsed with
              | Some (file_name, download_url) =>
                  if nonempty file_name && nonempty download_url
                  then Some (file_name, download_url) else None
              | None => None
              end
            with
            | Some (file_name, download_url) =>
                let fname := or_default (sanitize file_name) in
                let save_path := Py.join module_dir fname in
                try_except (download_file s download_url save_path)
                  (fun e => print (lit "          Error downloading " ++ fname
                                   ++ lit ": " ++ exn_str e)) w'
            | None =>
                if Py.contains (lit "/pages/") redirected_url then
                  (do markdown <-
                     parse_canvas_page_content_and_downloads
                       html2text (r_body page_html) module_dir s;
                   match markdown with
                   | Some (c :: text) =>
                       let fname := sanitize (title item) ++ lit ".md" in
                       let save_path := Py.join module_dir fname in
                       do_ makedirs (Py.dirname save_path);
                       do_ write_text save_path (c :: text);
                       print (lit "        Canvas page saved as markdown: " ++ fname)
                   | _ =>
                       print (lit "        Canvas page not found or no content: "
                              ++ redirected_url)
                   end) w'
                else
                  print (lit "        Skipped (not a file or page): "
                         ++ redirected_url) w'
            end
        end
    end.

(** ** Notions of the specification *)

(** The path of a URL, ignoring query and fragment: the part before the
    first question mark or hash sign. *)
Definition url_path_part (url : str) : str :=
  Py.take_while (fun c => negb (Py.eqc c "?"%char) && negb (Py.eqc c "#"%char)) url.

(** A substring of [s] is in the language of [r]. *)
Definition pattern_occurs (r : regex) (s : str) : Prop :=
  exists pre m post, s = pre ++ m ++ post /\ matches r m.

(** The signatures that open a RAR 4 archive ([Rar!], 1A 07 00) and a 7z
    archive ([7z], BC AF 27 1C). *)
Definition rar_signature : str :=
  ["R"; "a"; "r"; "!"; "026"; "007"; "000"]%char.

Definition sevenz_signature : str :=
  ["7"; "z"; "188"; "175"; "039"; "028"]%char.

(** The empty world, and a world with one file. *)
Definition empty_world : world := World ∅ [] [].

Definition world_with (path content : str) : world :=
  World {[ path := content ]} [] [].

(** The entries that the first loop of the transformer appends, without
    its printing. *)
Fixpoint collect_links (i : nat) (anchors : soup) : list link :=
  match anchors with
  | [] => []
  | a :: rest =>
      match a_href a with
      | None => collect_links (S i) rest
      | Some href =>
          let text := Py.strip (a_text a) in
          if skip_href href then collect_links (S i) rest
          else
            let full_url := absolutize href in
            if is_downloadable_file full_url text
            then Link (get_filename_from_url_or_text full_url text) full_url i href
                 :: collect_links (S i) rest
            else collect_links (S i) rest
      end
  end.

(** Sessions used in the examples: one without a network, one that answers
    404 to everything, one that serves the given bytes for every URL, and
    one that redirects every URL to its direct-download form. *)
Definition offline : session := fun _ _ => Raise ConnectionError.

Definition not_found : session :=
  fun _ u => Ok (Response 404 u [] None true [] None).

Definition serving (content : str) : session :=
  fun _ u => Ok (Response 200 u [] None true [content] None).

Definition redirecting : session :=
  fun _ u => Ok (Response 200 (u ++ download_marker) [] None true [] None).

(** An anchor that the loops skip: its [href] is present and is empty, a
    fragment or a mail address. *)
Definition skipped (a : anchor) : bool :=
  match a_href a with
  | Some href => skip_href href
  | None => false
  end.

(** A session that serves one item page, with the given anchors, and has no
    network beyond it. *)
Definition item_page_session (item_url : str) (page : soup) : session :=
  fun _ u =>
    if streq u item_url
    then Ok (Response 200 u page None true [] None)
    else Raise ConnectionError.

(** A session that answers every request with the same page, at the URL
    that was asked for. *)
Definition page_session (page : soup) : session :=
  fun _ u => Ok (Response 200 u page None true [] None).

(** ** The loops of [main] over the items of a module and over the modules *)

Record module : Type := Module_ { m_name : str; m_items : list module_item }.

(** [for item in module['items']], lines 400 to 433 *)
Fixpoint process_items (html2text : soup -> str) (s : session)
    (course_name module_name : str) (items : list module_item) : M unit :=
  match items with
  | [] => ret tt
  | item :: rest =>
      do_ process_item html2text s course_name module_name item;
      process_items html2text s course_name module_name rest
  end.


(** ** The module listing: [parse_modules_and_items] *)

(** The anchor [a.item_link] of a list item: its text and its [href] when
    it has one. *)
Record item_link : Type := ItemLink { il_text : str; il_href : option str }.

(** A module [div]: the text of its [span.name] when there is one, and for
    each [li.context_module_item] its item link when there is one. *)
Record module_div : Type := ModuleDiv {
  md_name : option str;
  md_lis : list (option item_link)
}.

(** The inner loop, lines 70 to 76. [BASE_URL + item_href] raises a
    [TypeError] when the link has no [href]; that is [None] here. *)
Fixpoint parse_items (lis : list (option item_link)) : option (list module_item) :=
  match lis with
  | [] => Some []
  | None :: rest => parse_items rest
  | Some link :: rest =>
      match il_href link with
      | None => None
      | Some item_href =>
          match parse_items rest with
          | Some items =>
              Some (ModuleItem (Py.strip (il_text link)) (BASE_URL ++ item_href) :: items)
          | None => None
          end
      end
  end.

(** The outer loop, lines 65 to 78. *)
Fixpoint parse_modules_and_items (divs : list module_div) : option (list module) :=
  match divs with
  | [] => Some []
  | module_div :: rest =>
      let module_name :=
        match md_name module_div with
        | Some text => Py.strip text
        | None => lit "UnknownModule"
        end in
      let module_name := sanitize module_name in
      match parse_items (md_lis module_div) with
      | None => None
      | Some items =>
          match parse_modules_and_items rest with
          | Some modules => Some (Module_ module_name items :: modules)
          | None => None
          end
      end
  end.

(** ** Cookies: [load_cookies] *)

(** What [json.load] gives on the cookie file, as far as the function
    distinguishes it: an object, or an array of objects. The fields of a
    cookie that are read, [name] and [value], are strings. *)
Inductive cookies_json : Type :=
| CookieDict (d : gmap str str)
| CookieList (l : list (gmap str str)).

(** The dict comprehension over the array, entry by entry: a later cookie
    of the same name replaces the earlier one, and a cookie without [name]
    or without [value] raises a [KeyError]. *)
Fixpoint cookies_of_list (l : list (gmap str str)) (acc : gmap str str)
  : result (gmap str str) :=
  match l with
  | [] => Ok acc
  | cookie :: rest =>
      match cookie !! lit "name", cookie !! lit "value" with
      | Some name, Some value => cookies_of_list rest (<[name := value]> acc)
      | _, _ => Raise KeyError
      end
  end.

Definition load_cookies (cookies_json : cookies_json) : result (gmap str str) :=
  match cookies_json with
  | CookieDict d => Ok d
  | CookieList l => cookies_of_list l ∅
  end.

(** ** Notions used in the statements *)

(** The body with the anchor of every entry rewritten, in order. *)
Definition rewrite_all (links : list link) (page : soup) : soup :=
  fold_left (fun page l => set_href page (l_tag l) (l_name l)) links page.

(** No character of the name is in the class the sanitiser removes. *)
Definition safe_name (name : str) : bool :=
  forallb (fun c => negb (illegal_char c)) name.

(** The header shows the markup of an HTML page. *)
Definition looks_like_html (header : str) : bool :=
  Py.contains (lit "<html") (Py.lower header)
  || Py.contains (lit "<!doctype") (Py.lower header).

(** A session that answers every request with the same response. *)
Definition constant_session (r : response) : session := fun _ _ => Ok r.

(** The signatures with which the validator compares the header for an
    expected extension; for an extension it does not know, any header
    passes this step. *)
Definition accepted_signatures (expected_extension : str) : list str :=
  let ext := Py.lower expected_extension in
  if streq ext (lit ".pdf") then [lit "%PDF-"]
  else if existsb (streq ext) (map lit [".zip"; ".rar"; ".7z"]%string) then zip_signatures
  else if existsb (streq ext) (map lit [".jpg"; ".jpeg"]%string) then [jpeg_signature]
  else if streq ext (lit ".png") then [png_signature]
  else [[]].

(** The line that the downloader prints at the end of a fetch that got a
    good answer. *)
Definition fetch_report (save_path : str) (r : response) : str :=
  match r_stream_exn r with
  | Some e =>
      lit "Error downloading " ++ Py.basename save_path ++ lit ": " ++ exn_str e
  | None =>
      let '(is_valid, message) :=
        check_header (take 1024 (concat (r_chunks r))) (Py.splitext_ext save_path) in
      if is_valid
      then lit "Downloaded: " ++ Py.basename save_path
      else lit "Downloaded: " ++ Py.basename save_path
           ++ lit " - Warning: " ++ message
  end.


(** [out] is [page] with some anchors rewritten by entries of [links]:
    the same number of anchors, each with its text and its [download]
    attribute, and with its [href] either as it was or set to the name of
    an entry that points at it. *)
Definition rewritten_from (links : list link) (page out : soup) : Prop :=
  length out = length page
  /\ forall i a', out !! i = Some a' ->
       exists a, page !! i = Some a
                 /\ a_text a' = a_text a /\ a_download a' = a_download a
                 /\ (a_href a' = a_href a
                     \/ exists l, In l links /\ l_tag l = i
                                  /\ a_href a' = Some (l_name l)).

(** The world after a line is printed. *)
Definition printed (line : str) (w : world) : world :=
  World (w_fs w) (w_requests w) (w_stdout w ++ [line]).

(** The value of the last cookie of the array that has the given name. *)
Fixpoint last_cookie (l : list (gmap str str)) (name : str) : option str :=
  match l with
  | [] => None
  | cookie :: rest =>
      match last_cookie rest name with
      | Some value => Some value
      | None =>
          if bool_decide (cookie !! lit "name" = Some name)
          then cookie !! lit "value" else None
      end
  end.


(** An anchor that the scan of a file page accepts: it has an [href] that
    passes the skip test, and the classifier accepts its absolute URL with
    its stripped text. *)
Definition qualifies (a : anchor) : bool :=
  match a_href a with
  | Some href =>
      negb (skip_href href)
      && is_downloadable_file (absolutize href) (Py.strip (a_text a))
  | None => false
  end.

(** ** [posixpath.normpath], to say when two path strings name one file *)






(** The [href] that the two searches of the resolver settle on, lines 140
    to 153: that of the anchor marked [download=true] when it is present
    and not empty, and otherwise the first [href] with the marker. *)
Definition resolver_choice (page : soup) : option str :=
  match
    match find_download_true page with
    | Some download_link => truthy_href download_link
    | None => None
    end
  with
  | Some href => Some href
  | None => find_marked_href page
  end.

(** * Properties *)

(** ** Strings *)

Section StringFacts.

Lemma eqc_eq (a b : ascii) : Py.eqc a b = true <-> a = b.
Proof. unfold Py.eqc. apply Ascii.eqb_eq. Qed.

Lemma eqc_refl (a : ascii) : Py.eqc a a = true.
Proof. by apply eqc_eq. Qed.

Lemma startswith_app (p t : str) : Py.startswith (p ++ t) p = true.
Proof.
  induction p as [|b p IH]; simpl; [done|].
  by rewrite eqc_refl, IH.
Qed.

Lemma startswith_spec (s p : str) :
  Py.startswith s p = true <-> exists t, s = p ++ t.
Proof.
  split.
  - revert s. induction p as [|b p IH]; intros s H.
    + by exists s.
    + destruct s as [|a s]; simpl in H; [done|].
      apply andb_true_iff in H as [Hab Hs].
      apply eqc_eq in Hab as ->.
      destruct (IH _ Hs) as [t ->]. by exists t.
  - intros [t ->]. apply startswith_app.
Qed.

Lemma endswith_app (s p : str) : Py.endswith (s ++ p) p = true.
Proof. unfold Py.endswith. rewrite rev_app_distr. apply startswith_app. Qed.

Lemma endswith_spec (s p : str) :
  Py.endswith s p = true <-> exists t, s = t ++ p.
Proof.
  unfold Py.endswith. rewrite startswith_spec. split.
  - intros [t Ht]. exists (rev t).
    rewrite <- (rev_involutive s), Ht, rev_app_distr.
    by rewrite rev_involutive.
  - intros [t ->]. exists (rev t). apply rev_app_distr.
Qed.

Lemma contains_app (sub pre post : str) :
  Py.contains sub (pre ++ sub ++ post) = true.
Proof.
  induction pre as [|a pre IH]; simpl.
  - destruct (sub ++ post) eqn:E; simpl;
      rewrite <- E, startswith_app; done.
  - rewrite IH. apply orb_true_r.
Qed.

Lemma contains_spec (sub s : str) :
  Py.contains sub s = true <-> exists pre post, s = pre ++ sub ++ post.
Proof.
  split.
  - induction s as [|a s IH]; simpl; intros H.
    + rewrite orb_false_r in H. apply startswith_spec in H as [t Ht].
      by exists [], t.
    + apply orb_true_iff in H as [H|H].
      * apply startswith_spec in H as [t Ht]. by exists [], t.
      * destruct (IH H) as (pre & post & ->). by exists (a :: pre), post.
  - intros (pre & post & ->). apply contains_app.
Qed.

Lemma lower_app (a b : str) : Py.lower (a ++ b) = Py.lower a ++ Py.lower b.
Proof. apply List.map_app. Qed.

Lemma take_drop_while (p : ascii -> bool) (s : str) :
  s = Py.take_while p s ++ Py.drop_while p s.
Proof.
  induction s as [|a s IH]; simpl; [done|].
  destruct (p a); simpl; congruence.
Qed.

Lemma drop_while_head (p : ascii -> bool) (s : str) (a : ascii) (t : str) :
  Py.drop_while p s = a :: t -> p a = false.
Proof.
  induction s as [|b s IH]; simpl; [done|].
  destruct (p b) eqn:E; [done|]. intros [= <- _]. done.
Qed.

Lemma take_while_all (p : ascii -> bool) (s : str) :
  forallb p (Py.take_while p s) = true.
Proof.
  induction s as [|a s IH]; simpl; [done|].
  destruct (p a) eqn:E; simpl; [by rewrite E|done].
Qed.

Lemma has_char_spec (c : ascii) (s : str) :
  Py.has_char c s = true <-> In c s.
Proof.
  unfold Py.has_char. rewrite existsb_exists. split.
  - intros (x & Hx & E). apply eqc_eq in E. by subst.
  - intros H. exists c. split; [done|apply eqc_refl].
Qed.

End StringFacts.

(** ** The matcher computes the language of a pattern *)

Section Matcher.

Lemma nullable_spec (r : regex) : nullable r = true <-> matches r [].
Proof.
  split.
  - induction r as [| | | | |r1 IH1 r2 IH2|r1 IH1 r2 IH2|r1 IH1];
      simpl; intros H; try discriminate.
    + constructor.
    + apply andb_true_iff in H as [H1 H2].
      change (@nil ascii) with (@nil ascii ++ []). constructor; auto.
    + apply orb_true_iff in H as [H|H];
        [apply m_alt_l | apply m_alt_r]; auto.
    + constructor.
  - intros H. remember [] as s eqn:Es.
    induction H; simpl; try discriminate; auto.
    + apply app_eq_nil in Es as [-> ->].
      by rewrite IHmatches1, IHmatches2.
    + by rewrite IHmatches.
    + rewrite IHmatches; [apply orb_true_r | done].
Qed.

Lemma star_cons_inv (r : regex) (c : ascii) (s : str) :
  matches (RStar r) (c :: s) ->
  exists s1 s2, s = s1 ++ s2 /\ matches r (c :: s1) /\ matches (RStar r) s2.
Proof.
  intros H. remember (RStar r) as r' eqn:Er. remember (c :: s) as t eqn:Et.
  induction H; try discriminate.
  injection Er as ->.
  destruct s1 as [|a s1]; simpl in Et.
  - by apply IHmatches2.
  - injection Et as Ea Es. subst a s. by exists s1, s2.
Qed.

Lemma seq_inv (r1 r2 : regex) (s : str) :
  matches (RSeq r1 r2) s ->
  exists s1 s2, s = s1 ++ s2 /\ matches r1 s1 /\ matches r2 s2.
Proof. intros H. inversion H; subst. eauto. Qed.

Lemma alt_inv (r1 r2 : regex) (s : str) :
  matches (RAlt r1 r2) s -> matches r1 s \/ matches r2 s.
Proof. intros H. inversion H; subst; auto. Qed.

Lemma deriv_spec (c : ascii) (r : regex) (s : str) :
  matches (deriv c r) s <-> matches r (c :: s).
Proof.
  revert s. induction r as [| |d| | |r1 IH1 r2 IH2|r1 IH1 r2 IH2|r1 IH1];
    intros s; simpl.
  - split; intros H; inversion H.
  - split; intros H; inversion H.
  - destruct (Py.eqc c d) eqn:E.
    + apply eqc_eq in E as ->. split; intros H; inversion H; subst; constructor.
    + split; intros H; inversion H; subst. by rewrite eqc_refl in E.
  - destruct (Py.is_digit c) eqn:E.
    + split; intros H; inversion H; subst; by constructor.
    + split; intros H; inversion H; subst. congruence.
  - destruct (Py.eqc c "010"%char) eqn:E.
    + apply eqc_eq in E as ->. split; intros H; inversion H; subst. done.
    + split; intros H; inversion H; subst; constructor.
      intros ->. by rewrite eqc_refl in E.
  - assert (Hseq : matches (RSeq (deriv c r1) r2) s ->
                   matches (RSeq r1 r2) (c :: s)).
    { intros H. apply seq_inv in H as (s1 & s2 & -> & H1 & H2).
      apply IH1 in H1. change (c :: s1 ++ s2) with ((c :: s1) ++ s2).
      by constructor. }
    assert (Hinv : matches (RSeq r1 r2) (c :: s) ->
                   matches (RSeq (deriv c r1) r2) s \/
                   (nullable r1 = true /\ matches (deriv c r2) s)).
    { intros H. apply seq_inv in H as (s1 & s2 & E & H1 & H2).
      destruct s1 as [|a s1]; simpl in E.
      - right. split; [by apply nullable_spec|]. subst s2. by apply IH2.
      - injection E as Ea Es. subst a s. left.
        constructor; [by apply IH1|done]. }
    destruct (nullable r1) eqn:N.
    + split.
      * intros H. apply alt_inv in H as [H|H]; [by apply Hseq|].
        change (c :: s) with ([] ++ c :: s). constructor.
        -- by apply nullable_spec.
        -- by apply IH2.
      * intros H. destruct (Hinv H) as [H'|[_ H']];
          [by apply m_alt_l | by apply m_alt_r].
    + split; [done|]. intros H. by destruct (Hinv H) as [H'|[? _]].
  - split; intros H; apply alt_inv in H as [H|H].
    + apply m_alt_l. by apply IH1.
    + apply m_alt_r. by apply IH2.
    + apply m_alt_l. by apply IH1.
    + apply m_alt_r. by apply IH2.
  - split.
    + intros H. apply seq_inv in H as (s1 & s2 & -> & H1 & H2).
      apply IH1 in H1. change (c :: s1 ++ s2) with ((c :: s1) ++ s2).
      by constructor.
    + intros H. apply star_cons_inv in H as (s1 & s2 & -> & H1 & H2).
      constructor; [by apply IH1|done].
Qed.

Lemma re_match_unfold (r : regex) (s : str) :
  re_match r s =
  nullable r || match s with [] => false | c :: s' => re_match (deriv c r) s' end.
Proof. by destruct s. Qed.

Lemma re_search_unfold (r : regex) (s : str) :
  re_search r s =
  re_match r s || match s with [] => false | _ :: s' => re_search r s' end.
Proof. by destruct s. Qed.

Lemma re_match_spec (r : regex) (s : str) :
  re_match r s = true <-> exists m post, s = m ++ post /\ matches r m.
Proof.
  revert r. induction s as [|c s IH]; intros r; rewrite re_match_unfold.
  - rewrite orb_false_r. split.
    + intros H. exists [], []. split; [done|]. by apply nullable_spec.
    + intros (m & post & E & H). symmetry in E.
      apply app_eq_nil in E as [-> _]. by apply nullable_spec.
  - split.
    + intros H. apply orb_true_iff in H as [H|H].
      * exists [], (c :: s). split; [done|]. by apply nullable_spec.
      * apply IH in H as (m & post & -> & H).
        exists (c :: m), post. split; [done|]. by apply deriv_spec.
    + intros (m & post & E & H). apply orb_true_iff.
      destruct m as [|a m]; [left; by apply nullable_spec|].
      injection E as Ea Es. subst a s. right. apply IH.
      exists m, post. split; [done|]. by apply deriv_spec.
Qed.

Lemma re_search_spec (r : regex) (s : str) :
  re_search r s = true <->
  exists pre m post, s = pre ++ m ++ post /\ matches r m.
Proof.
  induction s as [|c s IH]; rewrite re_search_unfold.
  - rewrite orb_false_r. split.
    + intros H. apply re_match_spec in H as (m & post & E & H).
      by exists [], m, post.
    + intros (pre & m & post & E & H). symmetry in E.
      apply app_eq_nil in E as [-> E]. apply re_match_spec. by exists m, post.
  - split.
    + intros H. apply orb_true_iff in H as [H|H].
      * apply re_match_spec in H as (m & post & E & H). by exists [], m, post.
      * apply IH in H as (pre & m & post & -> & H). by exists (c :: pre), m, post.
    + intros (pre & m & post & E & H). apply orb_true_iff.
      destruct pre as [|a pre]; simpl in E.
      * left. apply re_match_spec. by exists m, post.
      * injection E as Ea Es. subst a s. right. apply IH. by exists pre, m, post.
Qed.

Lemma matches_lit (s : str) : matches (RLit s) s.
Proof.
  induction s as [|c s IH]; simpl; [constructor|].
  change (c :: s) with ([c] ++ s). constructor; [constructor|done].
Qed.

Lemma matches_digits (c : ascii) (ds : str) :
  Py.is_digit c = true -> forallb Py.is_digit ds = true ->
  matches digits (c :: ds).
Proof.
  intros Hc Hds. unfold digits, RPlus.
  change (c :: ds) with ([c] ++ ds). constructor; [by constructor|].
  induction ds as [|d ds IH]; [constructor|].
  simpl in Hds. apply andb_true_iff in Hds as [Hd Hds].
  change (d :: ds) with ([d] ++ ds). constructor; [by constructor|auto].
Qed.

End Matcher.

(** ** The classifier *)

Section Classifier.

Lemma lower_extension (ext : str) :
  In ext downloadable_extensions -> Py.lower ext = ext.
Proof.
  intros H. unfold downloadable_extensions in H.
  repeat (destruct H as [<-|H]; [reflexivity|]). destruct H.
Qed.

Lemma url_split_path (url : str) :
  exists rest, url = url_path_part url ++ rest /\
    (rest = [] \/ exists c t, rest = c :: t /\ (c = "?"%char \/ c = "#"%char)).
Proof.
  unfold url_path_part.
  set (p := fun c => negb (Py.eqc c "?"%char) && negb (Py.eqc c "#"%char)).
  exists (Py.drop_while p url). split; [apply take_drop_while|].
  destruct (Py.drop_while p url) as [|c t] eqn:E; [by left|right].
  exists c, t. split; [done|].
  apply drop_while_head in E. unfold p in E.
  apply andb_false_iff in E as [E|E]; apply negb_false_iff, eqc_eq in E; auto.
Qed.

(** The extension rule on the lower-cased URL. *)
Lemma extension_rule (url ext : str) :
  In ext downloadable_extensions ->
  Py.endswith (Py.lower (url_path_part url)) ext = true ->
  existsb (url_has_extension (Py.lower url)) downloadable_extensions = true.
Proof.
  intros Hin Hend. apply existsb_exists. exists ext. split; [done|].
  apply endswith_spec in Hend as [stem Hstem].
  destruct (url_split_path url) as (rest & Hurl & Hrest).
  unfold url_has_extension. rewrite Hurl, lower_app, Hstem.
  destruct Hrest as [->|(c & t & -> & Hc)].
  - simpl. rewrite app_nil_r, endswith_app. done.
  - assert (Hl : Py.lower (c :: t) = c :: Py.lower t).
    { destruct Hc as [-> | ->]; reflexivity. }
    rewrite Hl. destruct Hc as [-> | ->].
    + replace ((stem ++ ext) ++ "?"%char :: Py.lower t)
        with (stem ++ (ext ++ lit "?") ++ Py.lower t)
        by (rewrite <- !app_assoc; reflexivity).
      rewrite contains_app. by rewrite orb_true_r.
    + replace ((stem ++ ext) ++ "#"%char :: Py.lower t)
        with (stem ++ (ext ++ lit "#") ++ Py.lower t)
        by (rewrite <- !app_assoc; reflexivity).
      rewrite contains_app. by rewrite orb_true_r.
Qed.

Lemma endswith_lower (s ext : str) :
  In ext downloadable_extensions ->
  Py.endswith s ext = true -> Py.endswith (Py.lower s) ext = true.
Proof.
  intros Hin H. apply endswith_spec in H as [t ->].
  rewrite lower_app, (lower_extension _ Hin). apply endswith_app.
Qed.

Lemma take_while_stop (p : ascii -> bool) (s rest : str) :
  forallb p s = true ->
  (rest = [] \/ exists c t, rest = c :: t /\ p c = false) ->
  Py.take_while p (s ++ rest) = s.
Proof.
  intros Hall Hrest. induction s as [|a s IH]; simpl in *.
  - destruct Hrest as [->|(c & t & -> & Hc)]; [done|]. simpl. by rewrite Hc.
  - apply andb_true_iff in Hall as [-> Hall]. by rewrite IH.
Qed.

(** The same for a URL given by its parts: scheme and host, path, and
    what follows the path. *)
Lemma extension_rule_by_parts (origin path rest ext text : str) :
  In ext downloadable_extensions ->
  forallb (fun c => negb (Py.eqc c "?"%char) && negb (Py.eqc c "#"%char))
          (origin ++ path) = true ->
  (rest = [] \/ exists c t, rest = c :: t /\ (c = "?"%char \/ c = "#"%char)) ->
  Py.endswith path ext = true ->
  is_downloadable_file (origin ++ path ++ rest) text = true.
Proof.
  intros Hin Hclean Hrest Hend. unfold is_downloadable_file.
  rewrite (extension_rule _ ext Hin); [done|].
  unfold url_path_part. rewrite app_assoc, take_while_stop; [| done |].
  - apply endswith_lower; [done|]. apply endswith_spec in Hend as [t ->].
    rewrite app_assoc. apply endswith_app.
  - destruct Hrest as [->|(c & t & -> & [-> | ->])]; [by left|right..];
      eexists _, _; (split; [reflexivity|reflexivity]).
Qed.

(** C2. A URL whose path, ignoring query and fragment, ends in a member of
    the extension list is classified downloadable whatever the anchor text
    is: the extension rule comes first and no later rule, the navigational
    keywords included, is consulted. *)
Theorem extension_dominates (url text ext : str) :
  In ext downloadable_extensions ->
  Py.endswith (url_path_part url) ext = true ->
  is_downloadable_file url text = true.
Proof.
  intros Hin Hend. unfold is_downloadable_file.
  rewrite (extension_rule url ext Hin); [done|].
  by apply endswith_lower.
Qed.

Lemma extension_dominates_witness :
  is_downloadable_file (lit "https://x.org/Notes/week1.pdf?verifier=abc#page=2")
                       (lit "course wiki page") = true.
Proof.
  apply (extension_dominates _ _ (lit ".pdf")).
  - vm_compute. auto.
  - vm_compute. reflexivity.
Defined.

Lemma pattern_rule (url text : str) (pattern : regex) :
  In pattern canvas_file_patterns ->
  pattern_occurs pattern url ->
  is_downloadable_file url text = true.
Proof.
  intros Hin Hocc. unfold is_downloadable_file.
  destruct (existsb _ downloadable_extensions); [done|].
  assert (H : existsb (fun p => re_search p url) canvas_file_patterns = true).
  { apply existsb_exists. exists pattern. split; [done|].
    by apply re_search_spec. }
  by rewrite H.
Qed.


(** The patterns on a few URLs. The marker pattern is the literal
    [/download?download_frd=1], and [file_contents] counts under a numbered
    course only. *)
Example files_id_found :
  existsb (fun p => re_search p (lit "https://x.org/files/12")) canvas_file_patterns
  = true.
Proof. reflexivity. Qed.

Example files_without_id_not_found :
  is_downloadable_file (lit "https://x.org/files/") (lit "wiki") = false.
Proof. reflexivity. Qed.

Example bare_marker_not_found :
  is_downloadable_file (lit "https://x.org/view?download_frd=1") (lit "wiki") = false.
Proof. reflexivity. Qed.

Example file_contents_outside_course_not_found :
  is_downloadable_file (lit "https://x.org/file_contents/a") (lit "wiki") = false.
Proof. reflexivity. Qed.

Lemma occurs_files_id (pre post : str) (d : ascii) :
  Py.is_digit d = true ->
  pattern_occurs (RCat [RLit (lit "/files/"); digits])
                 (pre ++ lit "/files/" ++ d :: post).
Proof.
  intros Hd. exists pre, (lit "/files/" ++ [d]), post. split.
  - by rewrite <- (app_assoc (lit "/files/")).
  - apply (m_seq (RLit (lit "/files/")) digits);
      [apply matches_lit|by apply matches_digits].
Qed.


(** The families of file references, read off the patterns: a numeric
    identifier under [/files/] (which covers the course and the user
    forms), the download marker, [file_contents] under a numbered course,
    and [files] anywhere after the host on the same line. *)
Lemma platform_families (url text : str) :
  (exists pre d post, url = pre ++ lit "/files/" ++ d :: post
                      /\ Py.is_digit d = true)
  \/ (exists pre post, url = pre ++ download_marker ++ post)
  \/ (exists pre d ds post,
        url = pre ++ lit "/courses/" ++ (d :: ds) ++ lit "/file_contents/" ++ post
        /\ forallb Py.is_digit (d :: ds) = true)
  \/ (exists pre mid post,
        url = pre ++ lit "instructure.com" ++ mid ++ lit "files" ++ post
        /\ ~ In "010"%char mid) ->
  is_downloadable_file url text = true.
Proof.
  intros [(pre & d & post & -> & Hd)
         |[(pre & post & ->)
          |[(pre & d & ds & post & -> & Hds)
           |(pre & mid & post & -> & Hmid)]]].
  - apply (pattern_rule _ _ (RCat [RLit (lit "/files/"); digits])).
    + simpl. auto.
    + by apply occurs_files_id.
  - apply (pattern_rule _ _ (RLit download_marker)).
    + simpl. auto.
    + exists pre, download_marker, post. split; [done|apply matches_lit].
  - apply (pattern_rule _ _
             (RCat [RLit (lit "/courses/"); digits; RLit (lit "/file_contents/")])).
    + simpl. auto.
    + exists pre, (lit "/courses/" ++ (d :: ds) ++ lit "/file_contents/"), post.
      split; [by rewrite <- !app_assoc|].
      apply (m_seq (RLit (lit "/courses/"))
                   (RSeq digits (RLit (lit "/file_contents/"))));
        [apply matches_lit|].
      simpl in Hds. apply andb_true_iff in Hds as [Hd Hds].
      apply m_seq; [by apply matches_digits|apply matches_lit].
  - apply (pattern_rule _ _
             (RCat [RLit (lit "instructure.com"); RStar RDot; RLit (lit "files")])).
    + simpl. auto 10.
    + exists pre, (lit "instructure.com" ++ mid ++ lit "files"), post.
      split; [by rewrite <- !app_assoc|].
      apply (m_seq (RLit (lit "instructure.com"))
                   (RSeq (RStar RDot) (RLit (lit "files"))));
        [apply matches_lit|].
      apply m_seq; [|apply matches_lit].
      clear -Hmid. induction mid as [|c mid IH]; [apply m_star_nil|].
      change (c :: mid) with ([c] ++ mid). apply m_star_cons.
      * apply m_dot. intros ->. apply Hmid. by left.
      * apply IH. intros H. apply Hmid. by right.
Qed.

End Classifier.

(** ** The filename resolver *)

Section Filename.

Lemma or_default_nonempty (filename : str) : or_default filename <> [].
Proof. by destruct filename. Qed.

(** C6. The resolver never returns the empty string, and on the URL
    [https://x/files/42/download?x=1] with the anchor text
    [Download Syllabus.pdf] it returns [Syllabus.pdf]. *)
Theorem filename_never_empty :
  (forall url text : str, get_filename_from_url_or_text url text <> [])
  /\ get_filename_from_url_or_text
       (lit "https://x/files/42/download?x=1") (lit "Download Syllabus.pdf")
     = lit "Syllabus.pdf".
Proof.
  split.
  - intros url text. apply or_default_nonempty.
  - vm_compute. reflexivity.
Qed.

Lemma filename_never_empty_witness :
  get_filename_from_url_or_text (lit "https://x.org/?") (lit "???") <> [].
Proof. apply (proj1 filename_never_empty). Defined.

Lemma split_count_has_char (c : ascii) (s : str) :
  Py.has_char c s = true -> (1 <? Py.split_count c s) = true.
Proof.
  unfold Py.has_char, Py.split_count. intros H.
  apply Nat.ltb_lt. apply existsb_exists in H as (x & Hx & E).
  assert (Hin : In x (List.filter (fun a => Py.eqc a c) s)).
  { apply filter_In. split; [done|].
    apply eqc_eq in E as ->. apply eqc_refl. }
  destruct (List.filter _ s); [destruct Hin|simpl; lia].
Qed.

(** C9. When the last path segment of the URL is unusable, the anchor-text
    fallback has no dot and the URL without its query has one, the text
    after the last dot of that URL is appended to the fallback exactly when
    it is at most 4 characters long; a longer one is not appended. *)
Theorem guessed_extension_at_most_four (url text : str) :
  unusable (Py.basename (strip_query url)) = true ->
  Py.has_char "."%char (text_fallback text) = false ->
  Py.has_char "."%char (strip_query url) = true ->
  get_filename_from_url_or_text url text =
    or_default (sanitize
      (if length (Py.split_last "."%char (strip_query url)) <=? 4
       then text_fallback text ++ "."%char :: Py.split_last "."%char (strip_query url)
       else text_fallback text)).
Proof.
  intros Hun Hfb Hurl. unfold get_filename_from_url_or_text, guess_extension.
  rewrite Hun, Hfb, Hurl, (split_count_has_char _ _ Hurl). simpl.
  reflexivity.
Qed.

Lemma guessed_extension_at_most_four_witness :
  get_filename_from_url_or_text (lit "https://x.org/v.2/files/42?a=b") (lit "Syllabus")
    = lit "Syllabus"
  /\ get_filename_from_url_or_text (lit "https://x.org/files.v2/?a=b") (lit "Syllabus")
    = lit "Syllabus.v2".
Proof.
  split.
  - rewrite (guessed_extension_at_most_four
               (lit "https://x.org/v.2/files/42?a=b") (lit "Syllabus"));
      vm_compute; reflexivity.
  - rewrite (guessed_extension_at_most_four
               (lit "https://x.org/files.v2/?a=b") (lit "Syllabus"));
      vm_compute; reflexivity.
Defined.

End Filename.

(** ** The content validator *)

Section Validator.

Lemma validate_file_content_eq (file_path ext : str) (w : world) :
  validate_file_content file_path ext w =
    (Ok match w_fs w !! file_path with
        | Some content => check_header (take 1024 content) ext
        | None => (false, lit "Could not validate file: " ++ exn_str FileNotFoundError)
        end, w).
Proof.
  unfold validate_file_content, try_except, bind, read_head, ret.
  by destruct (w_fs w !! file_path).
Qed.

(** The verdict depends on the first 1024 bytes of the file only. *)
Lemma validate_first_1024_only (file_path ext : str) (w1 w2 : world) (c1 c2 : str) :
  w_fs w1 !! file_path = Some c1 ->
  w_fs w2 !! file_path = Some c2 ->
  take 1024 c1 = take 1024 c2 ->
  fst (validate_file_content file_path ext w1)
  = fst (validate_file_content file_path ext w2).
Proof.
  intros H1 H2 E. rewrite !validate_file_content_eq. simpl.
  by rewrite H1, H2, E.
Qed.

(** A file that begins with [<html] and is expected to be a PDF is
    reported as HTML received instead of a PDF. *)
Lemma html_instead_of_pdf (file_path content : str) (w : world) :
  w_fs w !! file_path = Some content ->
  Py.startswith content (lit "<html") = true ->
  fst (validate_file_content file_path (lit ".pdf") w)
  = Ok (false, lit "Downloaded HTML instead of PDF").
Proof.
  intros Hfile Hstart. rewrite validate_file_content_eq. simpl. rewrite Hfile.
  apply startswith_spec in Hstart as [t ->]. reflexivity.
Qed.

(** A header that begins with [%PDF-] and shows neither [<html] nor
    [<!doctype] is valid for a PDF. *)
Lemma pdf_without_markup_valid (header : str) :
  Py.startswith header (lit "%PDF-") = true ->
  Py.contains (lit "<html") (Py.lower header) = false ->
  Py.contains (lit "<!doctype") (Py.lower header) = false ->
  check_header header (lit ".pdf") = (true, lit "File appears valid").
Proof.
  intros Hsig Hhtml Hdoc. unfold check_header.
  change (streq (Py.lower (lit ".pdf")) (lit ".pdf")) with true.
  cbv iota. rewrite Hsig, Hhtml, Hdoc. reflexivity.
Qed.

(** C4. The validator departs from the specification: a file that begins
    with [%PDF-], checked as [.pdf], is reported invalid when [<html] occurs
    later in its first 1024 bytes, because the check that the source
    announces for the other file types is applied to it as well. *)
Theorem pdf_with_html_text_reported_invalid :
  Py.startswith (lit "%PDF-1.4 %<html>") (lit "%PDF-") = true
  /\ fst (validate_file_content (lit "paper.pdf") (lit ".pdf")
            (world_with (lit "paper.pdf") (lit "%PDF-1.4 %<html>")))
     = Ok (false, lit "Downloaded HTML instead of expected file type").
Proof. split; vm_compute; reflexivity. Qed.

(** C5. The validator departs from the specification: the headers of
    [.rar] and [.7z] files are compared with the ZIP signatures, so a RAR
    archive and a 7z archive that begin with their own signatures are
    reported invalid. *)
Theorem genuine_rar_and_7z_reported_invalid :
  fst (validate_file_content (lit "a.rar") (lit ".rar")
         (world_with (lit "a.rar") (rar_signature ++ lit "payload")))
  = Ok (false, lit "Not a valid archive file")
  /\ fst (validate_file_content (lit "a.7z") (lit ".7z")
            (world_with (lit "a.7z") (sevenz_signature ++ lit "payload")))
     = Ok (false, lit "Not a valid archive file").
Proof. split; vm_compute; reflexivity. Qed.

(** For the three archive extensions the header is accepted exactly when
    it starts with a ZIP signature (and shows no HTML). *)
Lemma archive_checked_as_zip (header ext : str) :
  In ext (map lit [".zip"; ".rar"; ".7z"]%string) ->
  existsb (Py.startswith header) zip_signatures = false ->
  fst (check_header header ext) = false.
Proof.
  intros Hext Hsig. unfold check_header.
  assert (E : streq (Py.lower ext) (lit ".pdf") = false
              /\ existsb (streq (Py.lower ext))
                         (map lit [".zip"; ".rar"; ".7z"]%string) = true).
  { simpl in Hext. destruct Hext as [<-|[<-|[<-|[]]]]; split; reflexivity. }
  destruct E as [-> ->]. rewrite Hsig. simpl.
  by destruct (Py.contains _ _).
Qed.

End Validator.

(** ** The redirect resolver *)

Section Resolver.

Lemma resolve_returns (s : session) (url : str) (w : world) :
  exists u out,
    resolve_canvas_file_url s url w
    = (Ok u, World (w_fs w) (w_requests w ++ [url]) out)
    /\ (forall e, s (w_requests w) url = Raise e -> u = url)
    /\ (forall r, s (w_requests w) url = Ok r -> status_error r = true -> u = url)
    /\ (forall r, s (w_requests w) url = Ok r -> status_error r = false ->
          Py.contains download_marker (r_url r) = true -> u = r_url r).
Proof.
  unfold resolve_canvas_file_url, try_except, resolve_probe, bind, session_get.
  destruct (s (w_requests w) url) as [r|e] eqn:Es.
  - unfold raise_for_status. destruct (status_error r) eqn:Est; simpl.
    + eexists _, _. split; [reflexivity|].
      repeat split; intros; simplify_eq; congruence.
    + eexists _, _. split; [reflexivity|].
      repeat split; intros; simplify_eq; try congruence.
      unfold pick_download_url. by case_match.
  - simpl. eexists _, _. split; [reflexivity|].
    repeat split; intros; simplify_eq; congruence.
Qed.

(** C7. The resolver always returns a URL and never raises. When the
    request itself fails, or the answer has an error status, the URL it
    returns is the one it was given; when the answer is good and its final
    URL carries the download marker, it returns that final URL. *)
Theorem resolver_never_raises (s : session) (url : str) (w : world) :
  exists u w',
    resolve_canvas_file_url s url w = (Ok u, w')
    /\ (forall e, s (w_requests w) url = Raise e -> u = url)
    /\ (forall r, s (w_requests w) url = Ok r -> status_error r = true -> u = url)
    /\ (forall r, s (w_requests w) url = Ok r -> status_error r = false ->
          Py.contains download_marker (r_url r) = true -> u = r_url r).
Proof.
  destruct (resolve_returns s url w) as (u & out & E & H).
  by exists u, (World (w_fs w) (w_requests w ++ [url]) out).
Qed.

Lemma resolver_never_raises_witness :
  fst (resolve_canvas_file_url offline (lit "https://c.org/files/7") empty_world)
  = Ok (lit "https://c.org/files/7")
  /\ fst (resolve_canvas_file_url not_found (lit "https://c.org/files/7") empty_world)
     = Ok (lit "https://c.org/files/7")
  /\ fst (resolve_canvas_file_url redirecting (lit "https://c.org/files/7") empty_world)
     = Ok (lit "https://c.org/files/7/download?download_frd=1").
Proof.
  split; [|split].
  - destruct (resolver_never_raises offline (lit "https://c.org/files/7") empty_world)
      as (u & w' & E & H & _).
    rewrite E. simpl. f_equal. apply (H ConnectionError). reflexivity.
  - destruct (resolver_never_raises not_found (lit "https://c.org/files/7") empty_world)
      as (u & w' & E & _ & H & _).
    rewrite E. simpl. f_equal. apply (H _ eq_refl). reflexivity.
  - destruct (resolver_never_raises redirecting (lit "https://c.org/files/7") empty_world)
      as (u & w' & E & _ & _ & H).
    rewrite E. simpl. f_equal.
    apply (H _ eq_refl); vm_compute; reflexivity.
Defined.

End Resolver.

(** ** The downloader *)

Lemma print_run (line : str) (w : world) :
  print line w = (Ok tt, World (w_fs w) (w_requests w) (w_stdout w ++ [line])).
Proof. reflexivity. Qed.

Ltac mstep :=
  cbv beta iota delta [ret raise bind fst snd];
  repeat (rewrite print_run; cbv beta iota).

Ltac guarded_case :=
  eexists; split; [reflexivity|]; simpl; split; [done|];
  intros; simplify_eq; try congruence; done.

Section Downloader.

Lemma download_existing (s : session) (url save_path : str) (w : world) :
  is_Some (w_fs w !! save_path) ->
  exists r out,
    download_file s url save_path w
    = (r, World (w_fs w) (w_requests w) out).
Proof.
  intros Hex. unfold download_file, bind, makedirs, path_exists.
  destruct (Py.dirname save_path); simpl.
  - exists (Raise FileNotFoundError), (w_stdout w). by destruct w.
  - rewrite bool_decide_eq_true_2 by done. unfold print. simpl. eauto.
Qed.

Lemma write_chunks_content (save_path : str) (chunks : list str)
    (stream_exn : option exn) (w : world) (content : str) :
  w_fs w !! save_path = Some content ->
  let w' := snd (write_chunks save_path chunks stream_exn w) in
  w_fs w' !! save_path = Some (content ++ concat chunks)
  /\ w_requests w' = w_requests w.
Proof.
  revert w content. induction chunks as [|chunk rest IH]; intros w content Hc; simpl.
  - rewrite app_nil_r. by destruct stream_exn.
  - unfold bind, write_chunk. simpl. rewrite Hc. simpl.
    set (w1 := World _ _ _).
    destruct (IH w1 (content ++ chunk)) as [Hfs Hreq].
    { unfold w1. simpl. apply lookup_insert_eq. }
    by rewrite app_assoc.
Qed.

(** The [try] block of the downloader never lets an exception out, and a
    good answer leaves the streamed bytes at the save path. *)
Lemma fetch_guarded (s : session) (u save_path : str) (w : world) :
  exists w',
    try_except (fetch_and_validate s u save_path)
      (fun e => print (lit "Error downloading " ++ Py.basename save_path
                       ++ lit ": " ++ exn_str e)) w
    = (Ok tt, w')
    /\ w_requests w' = w_requests w ++ [u]
    /\ (forall r, s (w_requests w) u = Ok r ->
          status_error r = false -> r_length_ok r = true ->
          w_fs w' !! save_path = Some (concat (r_chunks r))).
Proof.
  unfold try_except, fetch_and_validate, bind, session_get, raise_for_status.
  destruct (s (w_requests w) u) as [r|e] eqn:Es; simpl; [|guarded_case].
  destruct (status_error r) eqn:Est; simpl; [guarded_case|].
  destruct (r_length_ok r) eqn:Elen; simpl; [|guarded_case].
  set (w1 := World (<[save_path:=[]]> (w_fs w)) (w_requests w ++ [u]) (w_stdout w)).
  destruct (write_chunks_content save_path (r_chunks r) (r_stream_exn r) w1 [])
    as [Hfs Hreq]; [apply lookup_insert_eq|].
  destruct (write_chunks save_path (r_chunks r) (r_stream_exn r) w1)
    as [[[]|e] w2]; simpl in *.
  - rewrite validate_file_content_eq. simpl.
    destruct (match w_fs w2 !! save_path with Some _ => _ | None => _ end)
      as [[] message]; simpl; guarded_case.
  - guarded_case.
Qed.

(** Past [os.makedirs] the downloader catches every failure itself. *)
Lemma download_file_returns (s : session) (url save_path : str) (w : world) :
  Py.dirname save_path <> [] ->
  exists w', download_file s url save_path w = (Ok tt, w').
Proof.
  intros Hdir. unfold download_file, makedirs, path_exists.
  destruct (Py.dirname save_path); [done|]. mstep.
  destruct (bool_decide _); [eauto|]. mstep.
  match goal with |- context [resolve_canvas_file_url s url ?w1] =>
    destruct (resolve_returns s url w1) as (u & out & -> & _) end.
  mstep.
  match goal with |- context [try_except _ _ ?w2] =>
    destruct (fetch_guarded s u save_path w2) as (w' & -> & _) end.
  eauto.
Qed.

(** When the session answers every request with the same good response,
    a first download puts the streamed bytes at the save path. *)
Lemma download_creates_file (s : session) (r : response) (url save_path : str)
    (w : world) :
  Py.dirname save_path <> [] ->
  w_fs w !! save_path = None ->
  (forall h u, s h u = Ok r) -> status_error r = false -> r_length_ok r = true ->
  w_fs (snd (download_file s url save_path w)) !! save_path
  = Some (concat (r_chunks r)).
Proof.
  intros Hdir Hnone Hs Hst Hlen.
  unfold download_file, makedirs, path_exists.
  destruct (Py.dirname save_path); [done|]. mstep.
  rewrite bool_decide_eq_false_2 by (rewrite Hnone; by intros [? ?]). mstep.
  match goal with |- context [resolve_canvas_file_url s url ?w1] =>
    destruct (resolve_returns s url w1) as (u & out & -> & _) end.
  mstep.
  match goal with |- context [try_except _ _ ?w2] =>
    destruct (fetch_guarded s u save_path w2) as (w' & -> & _ & Hfile) end.
  apply (Hfile r); [apply Hs|done|done].
Qed.

(** C3, as the code has it. When the file at the save path exists, the
    downloader makes no request and changes no file. Of two invocations on
    one save path, the second makes no request and changes no file whenever
    the first one left a file there. *)
Theorem download_skips_existing_file
    (s1 s2 : session) (url1 url2 save_path : str) (w : world) :
  (is_Some (w_fs w !! save_path) ->
   let w' := snd (download_file s1 url1 save_path w) in
   w_fs w' = w_fs w /\ w_requests w' = w_requests w)
  /\ (let w1 := snd (download_file s1 url1 save_path w) in
      is_Some (w_fs w1 !! save_path) ->
      let w2 := snd (download_file s2 url2 save_path w1) in
      w_fs w2 = w_fs w1 /\ w_requests w2 = w_requests w1).
Proof.
  split.
  - intros Hex. destruct (download_existing s1 url1 save_path w Hex)
      as (r & out & ->). done.
  - intros w1 Hex. destruct (download_existing s2 url2 save_path w1 Hex)
      as (r & out & ->). done.
Qed.

Lemma download_skips_existing_file_witness :
  let url := lit "https://x.org/notes.pdf" in
  let save_path := lit "dl/notes.pdf" in
  let s := serving (lit "%PDF-1.4") in
  let w := world_with save_path (lit "old bytes") in
  let w1 := snd (download_file s url save_path empty_world) in
  (w_fs (snd (download_file s url save_path w)) = w_fs w
   /\ w_requests (snd (download_file s url save_path w)) = w_requests w)
  /\ (w_fs (snd (download_file s url save_path w1)) = w_fs w1
      /\ w_requests (snd (download_file s url save_path w1)) = w_requests w1).
Proof.
  intros url save_path s w w1. split.
  - apply (proj1 (download_skips_existing_file s s url url save_path w)).
    vm_compute. eexists. reflexivity.
  - apply (proj2 (download_skips_existing_file s s url url save_path empty_world)).
    vm_compute. eexists. reflexivity.
Defined.

(** C3 does not hold for every pair of invocations: a first invocation
    that is answered 404 leaves no file, and the second invocation on the
    same save path makes the same two requests again. *)
Lemma failed_download_is_fetched_again :
  let url := lit "https://x.org/notes.pdf" in
  let save_path := lit "dl/notes.pdf" in
  let w1 := snd (download_file not_found url save_path empty_world) in
  let w2 := snd (download_file not_found url save_path w1) in
  w_fs w1 !! save_path = None
  /\ w_requests w1 = [url; url]
  /\ w_requests w2 = [url; url; url; url].
Proof. vm_compute. repeat split. Qed.

End Downloader.

(** ** The page content transformer and the file page *)

Section Transformer.

(** The first loop appends the entries of [collect_links] and touches
    neither the files nor the network. *)
Lemma scan_links_collect (anchors : soup) (i : nat) (acc : list link)
    (n : nat) (w : world) :
  exists n' out,
    scan_links i anchors acc n w
    = (Ok (acc ++ collect_links i anchors, n'),
       World (w_fs w) (w_requests w) out).
Proof.
  revert i acc n w. induction anchors as [|a rest IH]; intros i acc n w.
  - exists n, (w_stdout w). simpl. rewrite app_nil_r. by destruct w.
  - simpl. destruct (a_href a) as [href|]; [|apply IH].
    destruct (skip_href href); [apply IH|].
    destruct (is_downloadable_file _ _); [|apply IH].
    mstep.
    match goal with |- context [scan_links _ _ ?acc' _ ?w1] =>
      destruct (IH (S i) acc' (S n) w1) as (n' & out & ->) end.
    exists n', out. by rewrite <- app_assoc.
Qed.

(** Every entry points at an anchor of the body whose [href] passed the
    skip test. *)
Lemma collect_links_tag (anchors : soup) (i : nat) (l : link) :
  In l (collect_links i anchors) ->
  exists j a href,
    l_tag l = i + j /\ anchors !! j = Some a
    /\ a_href a = Some href /\ skip_href href = false.
Proof.
  revert i. induction anchors as [|a rest IH]; intros i Hin; [done|].
  assert (Hrest : In l (collect_links (S i) rest) ->
                  exists j a' href, l_tag l = i + j /\ (a :: rest) !! j = Some a'
                                    /\ a_href a' = Some href /\ skip_href href = false).
  { intros H. destruct (IH _ H) as (j & a' & href & Htag & Hj & Hh & Hs).
    exists (S j), a', href. repeat split; try done; lia. }
  simpl in Hin. destruct (a_href a) as [href|] eqn:Eh; [|auto].
  destruct (skip_href href) eqn:Es; [auto|].
  destruct (is_downloadable_file _ _); [|auto].
  destruct Hin as [<-|Hin]; [|auto].
  exists 0, a, href. simpl. repeat split; try done; lia.
Qed.

Lemma set_href_other (page : soup) (i j : nat) (name : str) :
  i <> j -> set_href page i name !! j = page !! j.
Proof. intros Hij. unfold set_href. by apply list_lookup_alter_ne. Qed.

(** The second loop always comes back, and changes only the anchors its
    entries point at. *)
Lemma download_links_loop_frame (s : session) (download_dir : str)
    (links : list link) (page : soup) (w : world) :
  exists page' w',
    download_links_loop s download_dir links page w = (Ok page', w')
    /\ forall j, (forall l, In l links -> l_tag l <> j) -> page' !! j = page !! j.
Proof.
  revert page w. induction links as [|l rest IH]; intros page w.
  - exists page, w. split; [reflexivity|done].
  - simpl. unfold try_except. mstep.
    destruct (download_file s (l_url l) _ _) as [[[]|e] w1]; mstep.
    + destruct (IH (set_href page (l_tag l) (l_name l)) w1) as (page' & w' & -> & Hframe).
      exists page', w'. split; [done|]. intros j Hj.
      rewrite Hframe by (intros l' Hl'; apply Hj; by right).
      apply set_href_other. apply Hj. by left.
    + match goal with |- context [download_links_loop _ _ _ _ ?w2] =>
        destruct (IH page w2) as (page' & w' & -> & Hframe) end.
      exists page', w'. split; [done|]. intros j Hj.
      apply Hframe. intros l' Hl'. apply Hj. by right.
Qed.

Lemma skip_href_absolutize (href : str) :
  skip_href href = false -> skip_href (absolutize href) = false.
Proof.
  intros H. unfold absolutize.
  destruct (Py.startswith href (lit "/")); [reflexivity|done].
Qed.

(** The scan of a file page returns a link of an anchor that passed the
    skip test. *)
Lemma scan_for_file_source (page : soup) (name url : str) :
  scan_for_file page = Some (name, url) ->
  exists a href,
    In a page /\ a_href a = Some href /\ skip_href href = false
    /\ url = absolutize href.
Proof.
  induction page as [|a rest IH]; [done|]. simpl.
  assert (Hrest : scan_for_file rest = Some (name, url) ->
                  exists a' href, (a = a' \/ In a' rest) /\ a_href a' = Some href
                                  /\ skip_href href = false /\ url = absolutize href).
  { intros H. destruct (IH H) as (a' & href & ? & ? & ? & ?).
    exists a', href. auto. }
  destruct (a_href a) as [href|] eqn:Eh; [|done].
  destruct (skip_href href) eqn:Es; [done|].
  destruct (is_downloadable_file _ _); [|done].
  intros [= <- <-]. exists a, href. auto.
Qed.

(** The scan of a file page does not see the skipped anchors. *)
Lemma scan_for_file_ignores_skipped (page : soup) :
  scan_for_file page
  = scan_for_file (List.filter (fun a => negb (skipped a)) page).
Proof.
  induction page as [|a rest IH]; [done|]. simpl. unfold skipped at 1.
  destruct (a_href a) as [href|] eqn:Eh; simpl.
  - destruct (skip_href href) eqn:Es; simpl; [done|].
    rewrite Eh, Es. by destruct (is_downloadable_file _ _).
  - by rewrite Eh.
Qed.

(** C10 does not hold for every anchor of a file page: an anchor marked
    [download=true] whose [href] starts with [#] and carries the download
    marker is returned as the download link, and the item loop requests
    it. *)
Lemma marked_anchor_escapes_skip_test :
  let a := Anchor (Some (lit "#/download?download_frd=1")) (Some (lit "true"))
                  (lit "Download notes.pdf") in
  let item := ModuleItem (lit "Notes") (lit "https://c.org/item") in
  let s := item_page_session (lit "https://c.org/item") [a] in
  skipped a = true
  /\ parse_file_download_link [a]
     = Ok (Some (lit "notes.pdf", lit "#/download?download_frd=1"))
  /\ w_requests (snd (process_item (fun _ => []) s (lit "Course") (lit "Week 1")
                                    item empty_world))
     = [lit "https://c.org/item"; lit "#/download?download_frd=1";
        lit "#/download?download_frd=1"].
Proof. vm_compute. repeat split. Qed.

(** Whatever the session answers, one entry of the download list ends
    with the anchor rewritten, as soon as the target directory has a
    name. *)
Lemma link_rewritten_whatever_the_answer (s : session) (download_dir : str)
    (l : link) (page : soup) (w : world) :
  Py.dirname (Py.join download_dir (l_name l)) <> [] ->
  exists w',
    download_links_loop s download_dir [l] page w
    = (Ok (set_href page (l_tag l) (l_name l)), w').
Proof.
  intros Hdir. simpl. unfold try_except. mstep.
  match goal with |- context [download_file s ?u ?p ?w1] =>
    destruct (download_file_returns s u p w1 Hdir) as (w' & ->) end.
  mstep. eauto.
Qed.

(** C1. The transformer departs from the specification: the download of
    the one link of the body is answered 404, no file is written, and the
    anchor is rewritten to the local file name all the same, because the
    downloader reports the failure and returns normally. *)
Theorem failed_download_still_rewritten :
  let url := lit "https://x.org/notes.pdf" in
  let run := transform_body (Some [Anchor (Some url) None (lit "Notes")])
               (lit "dl") not_found empty_world in
  fst run = Ok (Some [Anchor (Some (lit "notes.pdf")) None (lit "Notes")])
  /\ w_fs (snd run) = ∅
  /\ w_requests (snd run) = [url; url].
Proof. vm_compute. repeat split. Qed.

End Transformer.

(** * Further properties of the code *)

(** ** More on strings and paths *)

Section PathFacts.

Lemma forallb_rev (p : ascii -> bool) (s : str) :
  forallb p (rev s) = forallb p s.
Proof.
  induction s as [|a s IH]; [done|]. simpl.
  rewrite forallb_app, IH. simpl. rewrite andb_true_r. apply andb_comm.
Qed.

Lemma drop_while_app (p : ascii -> bool) (a b : str) :
  forallb p a = true -> Py.drop_while p (a ++ b) = Py.drop_while p b.
Proof.
  induction a as [|c a IH]; [done|]. simpl. intros H.
  apply andb_true_iff in H as [-> H]. auto.
Qed.

Lemma drop_while_keeps (p : ascii -> bool) (s : str) :
  forallb p s = false -> Py.drop_while p s <> [].
Proof.
  induction s as [|c s IH]; [done|]. simpl.
  destruct (p c); [done|]. discriminate.
Qed.

Lemma has_char_none (c : ascii) (s : str) :
  Py.has_char c s = false ->
  forallb (fun a => negb (Py.eqc a c)) s = true.
Proof.
  unfold Py.has_char. induction s as [|a s IH]; [done|]. simpl.
  intros H. apply orb_false_iff in H as [Hca Hs].
  rewrite (IH Hs), andb_true_r.
  destruct (Py.eqc a c) eqn:E; [|done].
  apply eqc_eq in E as ->. by rewrite eqc_refl in Hca.
Qed.

Lemma split_last_app (c : ascii) (x y : str) :
  Py.has_char c y = false ->
  (x = [] \/ exists x0, x = x0 ++ [c]) ->
  Py.split_last c (x ++ y) = y.
Proof.
  intros Hy Hx. unfold Py.split_last. rewrite rev_app_distr.
  rewrite take_while_stop; [apply rev_involutive | |].
  - rewrite forallb_rev. by apply has_char_none.
  - destruct Hx as [->|[x0 ->]]; [by left|right].
    rewrite rev_app_distr. simpl. eexists _, _. split; [reflexivity|].
    by rewrite eqc_refl.
Qed.

Lemma safe_name_no_slash (name : str) :
  safe_name name = true -> Py.has_char "/"%char name = false.
Proof.
  unfold safe_name, Py.has_char. induction name as [|a name IH]; [done|].
  simpl. intros H. apply andb_true_iff in H as [Ha Hn]. rewrite (IH Hn).
  rewrite orb_false_r. destruct (Py.eqc "/"%char a) eqn:E; [|done].
  apply eqc_eq in E as <-. done.
Qed.

(** [os.path.join] of a directory and a name without a slash: the name is
    put after the directory and one slash. *)
Lemma join_no_slash (dir name : str) :
  Py.has_char "/"%char name = false ->
  exists head, Py.join dir name = head ++ name
               /\ (head = [] /\ dir = [] \/ exists d0, head = d0 ++ ["/"%char])
               /\ (dir <> [] -> exists d0, head = d0 ++ ["/"%char]).
Proof.
  intros Hname. unfold Py.join.
  assert (Hstart : Py.startswith name (lit "/") = false).
  { destruct name as [|a name]; [done|]. simpl.
    unfold Py.has_char in Hname. simpl in Hname.
    apply orb_false_iff in Hname as [Ha _].
    destruct (Py.eqc a "/"%char) eqn:E; [|done].
    apply eqc_eq in E as ->. vm_compute in Ha. done. }
  rewrite Hstart. destruct dir as [|c dir].
  - exists []. split; [done|]. split; [by left|done].
  - destruct (Py.endswith (c :: dir) (lit "/")) eqn:E.
    + apply endswith_spec in E as [d0 E]. exists (c :: dir).
      split; [done|]. rewrite E. split; [right|intros _]; by exists d0.
    + exists ((c :: dir) ++ lit "/"). split; [by rewrite <- app_assoc|].
      split; [right|intros _]; by exists (c :: dir).
Qed.

Lemma basename_join (dir name : str) :
  Py.has_char "/"%char name = false ->
  Py.basename (Py.join dir name) = name.
Proof.
  intros Hname. destruct (join_no_slash dir name Hname) as (head & -> & Hhead & _).
  unfold Py.basename. apply split_last_app; [done|].
  destruct Hhead as [[-> _]|[d0 ->]]; [by left|right; by exists d0].
Qed.

Lemma dirname_join (dir name : str) :
  Py.has_char "/"%char name = false ->
  dir <> [] -> Py.dirname (Py.join dir name) <> [].
Proof.
  intros Hname Hdir.
  destruct (join_no_slash dir name Hname) as (head & -> & _ & Hhead).
  destruct (Hhead Hdir) as [d0 ->]. unfold Py.dirname.
  rewrite rev_app_distr, drop_while_app
    by (rewrite forallb_rev; by apply has_char_none).
  rewrite rev_app_distr.
  change (Py.drop_while _ (rev ["/"%char] ++ rev d0)) with ("/"%char :: rev d0).
  change (rev ("/"%char :: rev d0)) with (rev (rev d0) ++ ["/"%char]).
  rewrite rev_involutive.
  destruct (forallb (Py.eqc "/"%char) (d0 ++ ["/"%char])) eqn:E.
  - by destruct d0.
  - unfold Py.rstrip_slash. intros H.
    apply (f_equal (@rev ascii)) in H. rewrite rev_involutive in H. simpl in H.
    revert H. apply drop_while_keeps. by rewrite forallb_rev.
Qed.

Lemma dirname_bare_name (name : str) :
  Py.has_char "/"%char name = false -> Py.dirname name = [].
Proof.
  intros Hname. unfold Py.dirname.
  replace (rev name) with (rev name ++ []) by apply app_nil_r.
  rewrite drop_while_app by (rewrite forallb_rev; by apply has_char_none).
  reflexivity.
Qed.

End PathFacts.

(** ** More on the classifier *)

Section ClassifierMore.

(** X1. The classifier answers true exactly when one of its three positive
    rules fires: an extension of the list at the end of the lower-cased
    URL or in front of a question mark or hash sign, an occurrence of one
    of the platform patterns in the URL, or a file keyword in the
    lower-cased anchor text. The navigational keywords of the last loop
    never change the answer. *)
Theorem classifier_positive_rules (url text : str) :
  is_downloadable_file url text = true <->
  (exists ext, In ext downloadable_extensions
               /\ url_has_extension (Py.lower url) ext = true)
  \/ (exists pattern, In pattern canvas_file_patterns /\ pattern_occurs pattern url)
  \/ (exists indicator pre post, In indicator file_indicators
                                 /\ Py.lower text = pre ++ indicator ++ post).
Proof.
  unfold is_downloadable_file. split.
  - destruct (existsb (url_has_extension _) _) eqn:E1.
    { intros _. left. apply existsb_exists in E1 as (ext & ? & ?). eauto. }
    destruct (existsb (fun p => re_search p url) _) eqn:E2.
    { intros _. right. left. apply existsb_exists in E2 as (p & ? & Hp).
      apply re_search_spec in Hp. exists p. eauto. }
    destruct (existsb (fun i => Py.contains i (Py.lower text)) _) eqn:E3.
    { intros _. right. right. apply existsb_exists in E3 as (i & ? & Hi).
      apply contains_spec in Hi as (pre & post & ?). exists i, pre, post. eauto. }
    by destruct (existsb _ non_file_indicators).
  - intros [(ext & Hin & H)|[(p & Hin & H)|(i & pre & post & Hin & H)]].
    + assert (E : existsb (url_has_extension (Py.lower url))
                          downloadable_extensions = true)
        by (apply existsb_exists; eauto).
      by rewrite E.
    + destruct (existsb (url_has_extension _) _); [done|].
      assert (E : existsb (fun p => re_search p url) canvas_file_patterns = true).
      { apply existsb_exists. exists p. split; [done|]. by apply re_search_spec. }
      by rewrite E.
    + destruct (existsb (url_has_extension _) _); [done|].
      destruct (existsb (fun p => re_search p url) _); [done|].
      assert (E : existsb (fun i => Py.contains i (Py.lower text))
                          file_indicators = true).
      { apply existsb_exists. exists i. split; [done|].
        apply contains_spec. eauto. }
      by rewrite E.
Qed.

Lemma classifier_positive_rules_witness :
  is_downloadable_file (lit "https://x.org/about") (lit "Course SYLLABUS") = true.
Proof.
  apply classifier_positive_rules. right. right.
  exists (lit "syllabus"), (lit "course "), []. split.
  - vm_compute. auto 20.
  - reflexivity.
Defined.

(** X2. A file keyword in the anchor text, in any letter case, makes every
    URL downloadable. *)
Theorem keyword_in_text_downloadable (url pre word post indicator : str) :
  In indicator file_indicators ->
  Py.lower word = indicator ->
  is_downloadable_file url (pre ++ word ++ post) = true.
Proof.
  intros Hin Hword. unfold is_downloadable_file.
  destruct (existsb (url_has_extension _) _); [done|].
  destruct (existsb (fun p => re_search p url) _); [done|].
  assert (E : existsb (fun i => Py.contains i (Py.lower (pre ++ word ++ post)))
                      file_indicators = true).
  { apply existsb_exists. exists indicator. split; [done|].
    rewrite !lower_app, Hword. apply contains_app. }
  by rewrite E.
Qed.

Lemma keyword_in_text_downloadable_witness :
  is_downloadable_file (lit "https://x.org/about")
    (lit "See the " ++ lit "HandOut" ++ lit " here") = true.
Proof.
  apply (keyword_in_text_downloadable _ _ _ _ (lit "handout")).
  - vm_compute. auto 20.
  - reflexivity.
Defined.

(** X3. The extension test ignores letter case: a URL whose path, once
    lower-cased, ends in an extension of the list is downloadable. *)
Theorem extension_any_case (url text ext : str) :
  In ext downloadable_extensions ->
  Py.endswith (Py.lower (url_path_part url)) ext = true ->
  is_downloadable_file url text = true.
Proof.
  intros Hin Hend. unfold is_downloadable_file.
  by rewrite (extension_rule url ext Hin Hend).
Qed.

Lemma extension_any_case_witness :
  is_downloadable_file (lit "https://x.org/Slides/WEEK1.PPTX#slide=3") (lit "grade") = true.
Proof.
  apply (extension_any_case _ _ (lit ".pptx")).
  - vm_compute. auto 20.
  - vm_compute. reflexivity.
Defined.

End ClassifierMore.

(** ** More on the filename resolver *)

Section FilenameMore.

Lemma sanitize_safe (s : str) : safe_name (sanitize s) = true.
Proof.
  unfold safe_name, sanitize. apply forallb_forall. intros c Hc.
  by apply filter_In in Hc as [_ Hc].
Qed.

Lemma sanitize_id (s : str) : safe_name s = true -> sanitize s = s.
Proof.
  unfold safe_name, sanitize. induction s as [|c s IH]; [done|]. simpl.
  intros H. apply andb_true_iff in H as [-> H]. by rewrite IH.
Qed.

Lemma or_default_safe (s : str) : safe_name s = true -> safe_name (or_default s) = true.
Proof. by destruct s. Qed.

Lemma filename_safe (url text : str) :
  safe_name (get_filename_from_url_or_text url text) = true.
Proof.
  unfold get_filename_from_url_or_text. apply or_default_safe, sanitize_safe.
Qed.

Lemma filename_no_slash (url text : str) :
  Py.has_char "/"%char (get_filename_from_url_or_text url text) = false.
Proof. apply safe_name_no_slash, filename_safe. Qed.

(** X4. The resolved file name holds none of the characters that the
    sanitiser removes: no slash, backslash, star, question mark, colon,
    double quote, angle bracket or bar, whatever the URL and the anchor
    text are. *)
Theorem filename_has_no_illegal_char (url text : str) (c : ascii) :
  In c (get_filename_from_url_or_text url text) -> illegal_char c = false.
Proof.
  intros Hc. pose proof (filename_safe url text) as H.
  unfold safe_name in H. rewrite forallb_forall in H.
  apply negb_true_iff. by apply H.
Qed.

Lemma filename_has_no_illegal_char_witness :
  illegal_char "b"%char = false.
Proof.
  apply (filename_has_no_illegal_char (lit "https://x.org/a/b.pdf?x=1") (lit "A")).
  vm_compute. auto.
Defined.

(** X5. For the local path that the transformer builds for a linked file,
    [os.path.join(download_dir, name)]: [os.path.basename] of it is the
    resolved name, and [os.path.dirname] of it is not empty when the
    download directory is not, so that [os.makedirs] gets a path. The name
    itself can be [..], as the example after the theorem shows. *)
Theorem linked_file_path_parts (download_dir url text : str) :
  let name := get_filename_from_url_or_text url text in
  Py.basename (Py.join download_dir name) = name
  /\ (download_dir <> [] -> Py.dirname (Py.join download_dir name) <> []).
Proof.
  split.
  - apply basename_join, filename_no_slash.
  - apply dirname_join, filename_no_slash.
Qed.

Lemma linked_file_path_parts_witness :
  Py.dirname (Py.join (lit "CanvasDownloads/C/M")
                 (get_filename_from_url_or_text (lit "https://x.org/a/../b.pdf") (lit "B")))
  <> [].
Proof.
  apply (proj2 (linked_file_path_parts
                  (lit "CanvasDownloads/C/M") (lit "https://x.org/a/../b.pdf") (lit "B"))).
  discriminate.
Defined.

Example resolved_name_can_be_dot_dot :
  get_filename_from_url_or_text (lit "https://x.org/a/..") (lit "Download") = lit "..".
Proof. reflexivity. Qed.

End FilenameMore.

(** ** More on the validator *)

Ltac verdict_cases :=
  repeat match goal with
         | |- context [Py.contains ?a ?b] => destruct (Py.contains a b)
         end;
  cbn; intuition congruence.

Section ValidatorMore.

Lemma check_header_valid_iff (header ext : str) :
  fst (check_header header ext) = true <->
  existsb (Py.startswith header) (accepted_signatures ext) = true
  /\ looks_like_html header = false.
Proof.
  unfold check_header, accepted_signatures, looks_like_html.
  destruct (streq (Py.lower ext) (lit ".pdf")).
  { change (existsb (Py.startswith header) [lit "%PDF-"])
      with (Py.startswith header (lit "%PDF-") || false).
    destruct (Py.startswith header (lit "%PDF-")); verdict_cases. }
  destruct (existsb (streq (Py.lower ext)) (map lit [".zip"; ".rar"; ".7z"]%string)).
  { destruct (existsb (Py.startswith header) zip_signatures); verdict_cases. }
  destruct (existsb (streq (Py.lower ext)) (map lit [".jpg"; ".jpeg"]%string)).
  { change (existsb (Py.startswith header) [jpeg_signature])
      with (Py.startswith header jpeg_signature || false).
    destruct (Py.startswith header jpeg_signature); verdict_cases. }
  destruct (streq (Py.lower ext) (lit ".png")).
  { change (existsb (Py.startswith header) [png_signature])
      with (Py.startswith header png_signature || false).
    destruct (Py.startswith header png_signature); verdict_cases. }
  verdict_cases.
Qed.

(** X6. The verdict of the validator is true exactly when the file can be
    read, the first 1024 bytes start with a signature accepted for the
    expected extension (any header for an extension outside the known
    ones), and they show neither [<html] nor [<!doctype] in any letter
    case. *)
Theorem valid_iff_signature_and_no_markup (file_path ext : str) (w : world) :
  (exists message, fst (validate_file_content file_path ext w) = Ok (true, message))
  <->
  (exists content,
      w_fs w !! file_path = Some content
      /\ existsb (Py.startswith (take 1024 content)) (accepted_signatures ext) = true
      /\ looks_like_html (take 1024 content) = false).
Proof.
  rewrite validate_file_content_eq. simpl. split.
  - intros [message H]. destruct (w_fs w !! file_path) as [content|]; [|done].
    exists content. split; [done|]. apply check_header_valid_iff.
    injection H as H. by rewrite H.
  - intros (content & -> & Hsig & Hhtml).
    pose proof (proj2 (check_header_valid_iff (take 1024 content) ext)
                      (conj Hsig Hhtml)) as H.
    destruct (check_header (take 1024 content) ext) as [b message].
    simpl in H. subst b. by exists message.
Qed.

Lemma valid_iff_signature_and_no_markup_witness :
  exists message,
    fst (validate_file_content (lit "a.PNG") (lit ".PNG")
           (world_with (lit "a.PNG") (png_signature ++ lit "IHDR")))
    = Ok (true, message).
Proof.
  apply valid_iff_signature_and_no_markup.
  exists (png_signature ++ lit "IHDR").
  split; [reflexivity|]. split; vm_compute; reflexivity.
Defined.

(** X7. A file whose first 1024 bytes show [<html], in any letter case, is
    reported invalid for every expected extension, and the message says
    that HTML was downloaded. *)
Theorem html_page_always_reported (file_path ext content : str) (w : world) :
  w_fs w !! file_path = Some content ->
  Py.contains (lit "<html") (Py.lower (take 1024 content)) = true ->
  exists what,
    fst (validate_file_content file_path ext w)
    = Ok (false, lit "Downloaded HTML instead of " ++ what).
Proof.
  intros Hfile Hhtml. rewrite validate_file_content_eq. simpl. rewrite Hfile.
  unfold check_header. rewrite Hhtml. simpl.
  repeat case_match; simplify_eq; eexists; reflexivity.
Qed.

Lemma html_page_always_reported_witness :
  exists what,
    fst (validate_file_content (lit "a.zip") (lit ".zip")
           (world_with (lit "a.zip") (lit "<!DOCTYPE html><HTML><body>Login</body>")))
    = Ok (false, lit "Downloaded HTML instead of " ++ what).
Proof.
  apply (html_page_always_reported _ _ (lit "<!DOCTYPE html><HTML><body>Login</body>"));
    vm_compute; reflexivity.
Defined.

End ValidatorMore.

(** ** More on the resolver *)

Section ResolverMore.

Lemma find_marked_href_source (page : soup) (href : str) :
  find_marked_href page = Some href ->
  exists a, In a page /\ a_href a = Some href.
Proof.
  unfold find_marked_href. destruct (List.find _ page) as [a|] eqn:E; [|done].
  intros H. apply find_some in E as [Hin _]. eauto.
Qed.

Lemma pick_download_url_source (r : response) (url : str) :
  pick_download_url r url = url
  \/ pick_download_url r url = r_url r
  \/ exists a href, In a (r_soup r) /\ a_href a = Some href
                    /\ pick_download_url r url = absolutize href.
Proof.
  unfold pick_download_url.
  destruct (Py.contains download_marker (r_url r)); [auto|].
  destruct (_ && _); [|auto].
  destruct (find_download_true (r_soup r)) as [a|] eqn:Ef.
  - unfold find_download_true in Ef. apply find_some in Ef as [Hin _].
    unfold truthy_href. destruct (a_href a) as [[|c href]|] eqn:Eh.
    + destruct (find_marked_href _) as [h|] eqn:Em; [|auto].
      apply find_marked_href_source in Em as (a' & ? & ?). right. right. eauto.
    + right. right. eauto.
    + destruct (find_marked_href _) as [h|] eqn:Em; [|auto].
      apply find_marked_href_source in Em as (a' & ? & ?). right. right. eauto.
  - destruct (find_marked_href _) as [h|] eqn:Em; [|auto].
    apply find_marked_href_source in Em as (a' & ? & ?). right. right. eauto.
Qed.

Lemma resolve_run (s : session) (url : str) (w : world) :
  exists out,
    resolve_canvas_file_url s url w
    = (Ok match s (w_requests w) url with
          | Ok r => if status_error r then url else pick_download_url r url
          | Raise _ => url
          end,
       World (w_fs w) (w_requests w ++ [url]) out).
Proof.
  unfold resolve_canvas_file_url, try_except, resolve_probe, bind, session_get.
  destruct (s (w_requests w) url) as [r|e]; [|simpl; eauto].
  unfold raise_for_status. destruct (status_error r); simpl; eauto.
Qed.

(** X8. The resolver makes exactly one request, for the URL it was given,
    and changes no file. What it returns is that URL, or the final URL of
    the answer, or the [href] of an anchor of the fetched page, made
    absolute. *)
Theorem resolver_effects_and_sources (s : session) (url : str) (w : world) :
  exists u w',
    resolve_canvas_file_url s url w = (Ok u, w')
    /\ w_fs w' = w_fs w
    /\ w_requests w' = w_requests w ++ [url]
    /\ (u = url
        \/ exists r, s (w_requests w) url = Ok r
                     /\ (u = r_url r
                         \/ exists a href, In a (r_soup r) /\ a_href a = Some href
                                           /\ u = absolutize href)).
Proof.
  destruct (resolve_run s url w) as [out ->].
  eexists _, _. split; [reflexivity|]. repeat split.
  destruct (s (w_requests w) url) as [r|e]; [|by left].
  destruct (status_error r); [by left|].
  destruct (pick_download_url_source r url) as [E|[E|(a & href & ? & ? & E)]];
    rewrite E.
  - by left.
  - right. exists r. split; [done|by left].
  - right. exists r. split; [done|right]. by exists a, href.
Qed.

End ResolverMore.

(** ** More on the downloader *)

Section DownloaderMore.

Lemma write_chunks_run (save_path : str) (chunks : list str)
    (stream_exn : option exn) (w : world) (content : str) :
  w_fs w !! save_path = Some content ->
  write_chunks save_path chunks stream_exn w
  = (match stream_exn with Some e => Raise e | None => Ok tt end,
     World (<[save_path := content ++ concat chunks]> (w_fs w))
           (w_requests w) (w_stdout w)).
Proof.
  revert w content. induction chunks as [|chunk rest IH]; intros w content Hc.
  - simpl. rewrite app_nil_r, insert_id by done.
    destruct w. by destruct stream_exn.
  - simpl. unfold bind, write_chunk. rewrite Hc. simpl.
    rewrite (IH _ (content ++ chunk)) by apply lookup_insert_eq.
    simpl. by rewrite insert_insert_eq, app_assoc.
Qed.

Lemma fetch_good (s : session) (u save_path : str) (w : world) (r : response) :
  s (w_requests w) u = Ok r -> status_error r = false -> r_length_ok r = true ->
  try_except (fetch_and_validate s u save_path)
    (fun e => print (lit "Error downloading " ++ Py.basename save_path
                     ++ lit ": " ++ exn_str e)) w
  = (Ok tt,
     World (<[save_path := concat (r_chunks r)]> (w_fs w))
           (w_requests w ++ [u])
           (w_stdout w ++ [fetch_report save_path r])).
Proof.
  intros Hs Hst Hlen.
  unfold try_except, fetch_and_validate, bind, session_get, raise_for_status.
  rewrite Hs, Hst, Hlen. cbv beta iota delta [ret open_wb].
  rewrite (write_chunks_run _ _ _ _ []) by apply lookup_insert_eq.
  cbn [w_fs w_requests w_stdout].
  rewrite insert_insert_eq. unfold fetch_report.
  destruct (r_stream_exn r) as [e|]; [reflexivity|].
  rewrite validate_file_content_eq.
  cbn [w_fs]. rewrite lookup_insert_eq.
  change ([] ++ concat (r_chunks r)) with (concat (r_chunks r)).
  destruct (check_header _ _) as [[] message]; reflexivity.
Qed.

Lemma fetch_bad (s : session) (u save_path : str) (w : world) :
  match s (w_requests w) u with
  | Ok r => status_error r = true \/ r_length_ok r = false
  | Raise _ => True
  end ->
  exists line,
    try_except (fetch_and_validate s u save_path)
      (fun e => print (lit "Error downloading " ++ Py.basename save_path
                       ++ lit ": " ++ exn_str e)) w
    = (Ok tt, World (w_fs w) (w_requests w ++ [u]) (w_stdout w ++ [line])).
Proof.
  unfold try_except, fetch_and_validate, bind, session_get, raise_for_status.
  destruct (s (w_requests w) u) as [r|e]; [|intros _; simpl; eauto].
  destruct (status_error r); [intros _; simpl; eauto|].
  destruct (r_length_ok r); [by intros [|]|intros _; simpl; eauto].
Qed.

(** What one invocation of the downloader does, past [os.makedirs]. *)
Lemma download_run (s : session) (url save_path : str) (w : world) :
  Py.dirname save_path <> [] ->
  (is_Some (w_fs w !! save_path)
   /\ download_file s url save_path w
      = (Ok tt, World (w_fs w) (w_requests w)
                  (w_stdout w ++ [lit "Already downloaded: " ++ Py.basename save_path])))
  \/ (w_fs w !! save_path = None
      /\ exists u out,
           resolve_canvas_file_url s url
             (World (w_fs w) (w_requests w)
                    (w_stdout w ++ [lit "          Resolving URL: " ++ url]))
           = (Ok u, World (w_fs w) (w_requests w ++ [url]) out)
           /\ (forall r, s (w_requests w ++ [url]) u = Ok r ->
                  status_error r = false -> r_length_ok r = true ->
                  download_file s url save_path w
                  = (Ok tt,
                     World (<[save_path := concat (r_chunks r)]> (w_fs w))
                           (w_requests w ++ [url; u])
                           (out ++ [lit "          Resolved to: " ++ u;
                                    fetch_report save_path r])))
           /\ (exists fs' line,
                 download_file s url save_path w
                 = (Ok tt,
                    World fs' (w_requests w ++ [url; u])
                          (out ++ [lit "          Resolved to: " ++ u; line]))
                 /\ (fs' = w_fs w
                     \/ exists content, fs' = <[save_path := content]> (w_fs w)))).
Proof.
  intros Hdir. unfold download_file, makedirs, path_exists.
  destruct (Py.dirname save_path); [done|]. mstep.
  destruct (w_fs w !! save_path) as [content|] eqn:Hfile.
  - left. split; [by eexists|]. by rewrite bool_decide_eq_true_2 by (by eexists).
  - right. split; [done|].
    rewrite bool_decide_eq_false_2 by (by intros [? ?]). mstep.
    match goal with |- context [resolve_canvas_file_url s url ?w1] =>
      destruct (resolve_run s url w1) as [out E] end.
    eexists _, out. split; [exact E|]. rewrite E. mstep.
    cbn [w_fs w_requests w_stdout] in *.
    match goal with |- context [try_except _ _ ?w2] => set (w2' := w2) end.
    match type of E with _ = (Ok ?u0, _) => set (u := u0) in * end.
    assert (Hgood : forall r, s (w_requests w ++ [url]) u = Ok r ->
                      status_error r = false -> r_length_ok r = true ->
                      try_except (fetch_and_validate s u save_path)
                        (fun e => print (lit "Error downloading " ++ Py.basename save_path
                                         ++ lit ": " ++ exn_str e)) w2'
                      = (Ok tt,
                         World (<[save_path := concat (r_chunks r)]> (w_fs w))
                               (w_requests w ++ [url; u])
                               (out ++ [lit "          Resolved to: " ++ u;
                                        fetch_report save_path r]))).
    { intros r Hr Hst Hlen. rewrite (fetch_good s u save_path w2' r); try done.
      unfold w2'. cbn [w_fs w_requests w_stdout]. by rewrite <- !app_assoc. }
    split; [exact Hgood|].
    destruct (s (w_requests w ++ [url]) u) as [r|e] eqn:Es.
    + destruct (status_error r) eqn:Est; [|destruct (r_length_ok r) eqn:Elen].
      * destruct (fetch_bad s u save_path w2') as [line ->].
        { unfold w2'. cbn [w_requests]. rewrite Es. by left. }
        exists (w_fs w), line. unfold w2'. cbn [w_fs w_requests w_stdout].
        rewrite <- !app_assoc. split; [done|by left].
      * rewrite (Hgood r) by done. eexists _, _. split; [reflexivity|].
        right. by eexists.
      * destruct (fetch_bad s u save_path w2') as [line ->].
        { unfold w2'. cbn [w_requests]. rewrite Es. by right. }
        exists (w_fs w), line. unfold w2'. cbn [w_fs w_requests w_stdout].
        rewrite <- !app_assoc. split; [done|by left].
    + destruct (fetch_bad s u save_path w2') as [line ->].
      { unfold w2'. cbn [w_requests]. by rewrite Es. }
      exists (w_fs w), line. unfold w2'. cbn [w_fs w_requests w_stdout].
      rewrite <- !app_assoc. split; [done|by left].
Qed.

Lemma download_bare_name (s : session) (url save_path : str) (w : world) :
  Py.dirname save_path = [] ->
  download_file s url save_path w = (Raise FileNotFoundError, w).
Proof.
  intros Hdir. unfold download_file, makedirs. by rewrite Hdir.
Qed.

Lemma download_frame (s : session) (url save_path other : str) (w : world) :
  other <> save_path ->
  w_fs (snd (download_file s url save_path w)) !! other = w_fs w !! other.
Proof.
  intros Hother.
  destruct (decide (Py.dirname save_path = [])) as [Hdir|Hdir].
  { by rewrite download_bare_name. }
  destruct (download_run s url save_path w Hdir)
    as [[_ ->]|(_ & u & out & _ & _ & fs' & line & -> & Hfs)]; simpl; [done|].
  destruct Hfs as [->|[content ->]]; [done|]. by rewrite lookup_insert_ne.
Qed.



(** X10. The downloader raises exactly when the save path has no directory
    part: then [os.makedirs] fails on the empty path before anything else
    is done, even when the file is there already. With a directory part
    it returns normally whatever the network does. *)
Theorem download_raises_iff_no_directory
    (s : session) (url save_path : str) (w : world) :
  (Py.dirname save_path = [] ->
   download_file s url save_path w = (Raise FileNotFoundError, w))
  /\ (Py.dirname save_path <> [] ->
      fst (download_file s url save_path w) = Ok tt).
Proof.
  split; [apply download_bare_name|]. intros Hdir.
  destruct (download_run s url save_path w Hdir)
    as [[_ ->]|(_ & u & out & _ & _ & fs' & line & -> & _)]; done.
Qed.

Lemma download_raises_iff_no_directory_witness :
  download_file offline (lit "https://x.org/a.txt") (lit "a.txt")
    (world_with (lit "a.txt") (lit "here"))
  = (Raise FileNotFoundError, world_with (lit "a.txt") (lit "here"))
  /\ fst (download_file offline (lit "https://x.org/a.txt") (lit "dl/a.txt") empty_world)
     = Ok tt.
Proof.
  split.
  - apply (proj1 (download_raises_iff_no_directory _ _ _ _)). reflexivity.
  - apply (proj2 (download_raises_iff_no_directory _ _ _ _)). discriminate.
Defined.

Lemma download_good_run (s : session) (r : response) (url save_path : str) (w : world) :
  Py.dirname save_path <> [] ->
  w_fs w !! save_path = None ->
  (forall h u, s h u = Ok r) -> status_error r = false -> r_length_ok r = true ->
  exists out,
    download_file s url save_path w
    = (Ok tt,
       World (<[save_path := concat (r_chunks r)]> (w_fs w))
             (w_requests w ++ [url; pick_download_url r url])
             (out ++ [fetch_report save_path r])).
Proof.
  intros Hdir Hnone Hs Hst Hlen.
  destruct (download_run s url save_path w Hdir)
    as [[[c Hc] _]|(_ & u & out & Hres & Hgood & _)]; [congruence|].
  destruct (resolve_run s url
              (World (w_fs w) (w_requests w)
                     (w_stdout w ++ [lit "          Resolving URL: " ++ url])))
    as [out' Hrun].
  rewrite Hrun in Hres. cbn [w_requests] in Hres. rewrite Hs, Hst in Hres.
  injection Hres as <- _.
  rewrite (Hgood r) by done.
  exists (out ++ [lit "          Resolved to: " ++ pick_download_url r url]).
  by rewrite <- app_assoc.
Qed.

(** X11. When the body of a good answer breaks off while it is streamed,
    the chunks that arrived stay on disk at the save path and the failure
    is reported; a later invocation on that path finds the file and
    neither requests nor writes anything, so the partial file is never
    completed. *)
Theorem broken_stream_leaves_partial_file
    (s s2 : session) (r : response) (e : exn) (url url2 save_path : str) (w : world) :
  Py.dirname save_path <> [] ->
  w_fs w !! save_path = None ->
  (forall h u, s h u = Ok r) -> status_error r = false -> r_length_ok r = true ->
  r_stream_exn r = Some e ->
  let w1 := snd (download_file s url save_path w) in
  let w2 := snd (download_file s2 url2 save_path w1) in
  w_fs w1 !! save_path = Some (concat (r_chunks r))
  /\ last (w_stdout w1)
     = Some (lit "Error downloading " ++ Py.basename save_path
             ++ lit ": " ++ exn_str e)
  /\ w_fs w2 = w_fs w1 /\ w_requests w2 = w_requests w1.
Proof.
  intros Hdir Hnone Hs Hst Hlen He w1 w2.
  destruct (download_good_run s r url save_path w Hdir Hnone Hs Hst Hlen) as [out E].
  assert (Hfile : w_fs w1 !! save_path = Some (concat (r_chunks r))).
  { unfold w1. rewrite E. cbn [snd w_fs]. apply lookup_insert_eq. }
  split; [done|]. split.
  - unfold w1. rewrite E. cbn [snd w_stdout]. rewrite last_snoc.
    unfold fetch_report. by rewrite He.
  - unfold w2. destruct (download_existing s2 url2 save_path w1) as (res & out2 & ->);
      [by eexists|done].
Qed.

Lemma broken_stream_leaves_partial_file_witness :
  let r := Response 200 (lit "https://x.org/a.bin") [] None true
                    [lit "first"; lit "second"] (Some ChunkedEncodingError) in
  let w1 := snd (download_file (constant_session r) (lit "https://x.org/a.bin")
                   (lit "dl/a.bin") empty_world) in
  w_fs w1 !! lit "dl/a.bin" = Some (lit "firstsecond")
  /\ w_requests (snd (download_file offline (lit "https://x.org/a.bin")
                        (lit "dl/a.bin") w1))
     = w_requests w1.
Proof.
  intros r w1.
  destruct (broken_stream_leaves_partial_file
              (constant_session r) offline r ChunkedEncodingError
              (lit "https://x.org/a.bin") (lit "https://x.org/a.bin")
              (lit "dl/a.bin") empty_world)
    as (H1 & _ & _ & H2); try reflexivity; [discriminate|].
  split; [exact H1|exact H2].
Defined.

(** X12. A file that fails validation is kept: after a good answer whose
    body streams to the end, the bytes are at the save path whatever the
    validator says, and when it says invalid the last line printed is the
    warning with its message. *)
Theorem invalid_download_is_kept
    (s : session) (r : response) (url save_path message : str) (w : world) :
  Py.dirname save_path <> [] ->
  w_fs w !! save_path = None ->
  (forall h u, s h u = Ok r) -> status_error r = false -> r_length_ok r = true ->
  r_stream_exn r = None ->
  check_header (take 1024 (concat (r_chunks r))) (Py.splitext_ext save_path)
  = (false, message) ->
  let w1 := snd (download_file s url save_path w) in
  w_fs w1 !! save_path = Some (concat (r_chunks r))
  /\ last (w_stdout w1)
     = Some (lit "Downloaded: " ++ Py.basename save_path
             ++ lit " - Warning: " ++ message).
Proof.
  intros Hdir Hnone Hs Hst Hlen He Hcheck w1.
  destruct (download_good_run s r url save_path w Hdir Hnone Hs Hst Hlen) as [out E].
  unfold w1. rewrite E. cbn [snd w_fs w_stdout]. split.
  - apply lookup_insert_eq.
  - rewrite last_snoc. unfold fetch_report. by rewrite He, Hcheck.
Qed.

Lemma invalid_download_is_kept_witness :
  let r := Response 200 (lit "https://x.org/login") [] None true
                    [lit "<html><body>Please log in</body></html>"] None in
  w_fs (snd (download_file (constant_session r) (lit "https://x.org/files/7/notes.pdf")
               (lit "dl/notes.pdf") empty_world)) !! lit "dl/notes.pdf"
  = Some (lit "<html><body>Please log in</body></html>").
Proof.
  intros r.
  apply (invalid_download_is_kept (constant_session r) r
           (lit "https://x.org/files/7/notes.pdf") (lit "dl/notes.pdf")
           (lit "Downloaded HTML instead of PDF") empty_world);
    try reflexivity. discriminate.
Defined.

End DownloaderMore.

(** ** More on the transformer *)

Section TransformerMore.

Context (s : session) (download_dir : str).

Lemma collect_links_name (anchors : soup) (i : nat) (l : link) :
  In l (collect_links i anchors) -> safe_name (l_name l) = true.
Proof.
  revert i. induction anchors as [|a rest IH]; intros i Hin; [done|].
  simpl in Hin. destruct (a_href a) as [href|]; [|eauto].
  destruct (skip_href href); [eauto|].
  destruct (is_downloadable_file _ _); [|eauto].
  destruct Hin as [<-|Hin]; [|eauto]. apply filename_safe.
Qed.

(** One round of the second loop when the local path has a directory
    part: the anchor is rewritten whatever the downloader met. *)
Lemma loop_step (l : link) (rest : list link) (page : soup) (w : world) :
  Py.dirname (Py.join download_dir (l_name l)) <> [] ->
  download_links_loop s download_dir (l :: rest) page w
  = download_links_loop s download_dir rest
      (set_href page (l_tag l) (l_name l))
      (snd (download_file s (l_url l) (Py.join download_dir (l_name l))
              (printed (lit "          Downloading linked file: " ++ l_name l) w))).
Proof.
  intros Hdir. cbn [download_links_loop]. unfold try_except. mstep.
  fold (printed (lit "          Downloading linked file: " ++ l_name l) w).
  destruct (download_file_returns s (l_url l) _
              (printed (lit "          Downloading linked file: " ++ l_name l) w) Hdir)
    as [w1 ->].
  reflexivity.
Qed.

(** One round when the local path is a bare name: [os.makedirs] raises,
    the transformer reports it and leaves the anchor alone. *)
Lemma loop_step_bare (l : link) (rest : list link) (page : soup) (w : world) :
  Py.dirname (Py.join download_dir (l_name l)) = [] ->
  download_links_loop s download_dir (l :: rest) page w
  = download_links_loop s download_dir rest page
      (printed (lit "          Error downloading linked file "
                ++ l_name l ++ lit ": " ++ exn_str FileNotFoundError)
         (printed (lit "          Downloading linked file: " ++ l_name l) w)).
Proof.
  intros Hdir. cbn [download_links_loop]. unfold try_except. mstep.
  rewrite download_bare_name by done. mstep. reflexivity.
Qed.

Lemma loop_rewrites_all (links : list link) (page : soup) (w : world) :
  (forall l, In l links -> Py.dirname (Py.join download_dir (l_name l)) <> []) ->
  fst (download_links_loop s download_dir links page w)
  = Ok (rewrite_all links page).
Proof.
  revert page w. induction links as [|l rest IH]; intros page w Hdir; [done|].
  rewrite loop_step by (apply Hdir; by left).
  rewrite IH by (intros l' Hl'; apply Hdir; by right). reflexivity.
Qed.

Lemma transform_run (page : soup) (w : world) :
  exists out,
    transform_body (Some page) download_dir s w
    = (let '(r, w') :=
         download_links_loop s download_dir (collect_links 0 page) page
           (World (w_fs w) (w_requests w) out) in
       (match r with Ok page' => Ok (Some page') | Raise e => Raise e end, w')).
Proof.
  unfold transform_body. mstep.
  destruct (scan_links_collect page 0 [] 0 w) as (n' & out & ->). mstep.
  change ([] ++ collect_links 0 page) with (collect_links 0 page).
  cbn [w_fs w_requests w_stdout].
  match goal with
  | |- context [download_links_loop _ _ _ _ (World _ _ ?o)] => exists o
  end.
  destruct (download_links_loop _ _ _ _ _) as [[page'|e] w']; reflexivity.
Qed.

End TransformerMore.

(** X13. With a download directory that is not the empty string, the
    markup that the transformer serialises does not depend on the network:
    for every session it is the body with the anchor of every download
    entry rewritten to the entry's local name. *)
Theorem transformed_markup_ignores_network
    (s : session) (download_dir : str) (page : soup) (w : world) :
  download_dir <> [] ->
  fst (transform_body (Some page) download_dir s w)
  = Ok (Some (rewrite_all (collect_links 0 page) page)).
Proof.
  intros Hdir. destruct (transform_run s download_dir page w) as [out ->].
  pose proof (loop_rewrites_all s download_dir (collect_links 0 page) page
                (World (w_fs w) (w_requests w) out)) as H.
  destruct (download_links_loop _ _ _ _ _) as [r w']. simpl in *.
  rewrite H; [done|]. intros l Hl.
  apply dirname_join; [|done].
  by apply safe_name_no_slash, (collect_links_name page 0).
Qed.

Lemma transformed_markup_ignores_network_witness :
  let page := [Anchor (Some (lit "/courses/1/files/7")) None (lit "Notes");
               Anchor (Some (lit "#top")) None (lit "Top")] in
  fst (transform_body (Some page) (lit "dl") offline empty_world)
  = fst (transform_body (Some page) (lit "dl") (serving (lit "%PDF-1.4")) empty_world).
Proof.
  intros page.
  rewrite !transformed_markup_ignores_network by discriminate. reflexivity.
Defined.

Section TransformerShape.

Context (s : session) (download_dir : str).

Lemma rewritten_refl (page : soup) : rewritten_from [] page page.
Proof. split; [done|]. intros i a' H. exists a'. auto. Qed.

Lemma rewritten_weaken (l : link) (rest : list link) (page out : soup) :
  rewritten_from rest page out -> rewritten_from (l :: rest) page out.
Proof.
  intros [Hlen H]. split; [done|]. intros i a' Hi.
  destruct (H i a' Hi) as (a & ? & ? & ? & [?|(l' & ? & ? & ?)]);
    exists a; repeat split; try done; [by left|right].
  exists l'. repeat split; try done. by right.
Qed.

Lemma rewritten_step (l : link) (rest : list link) (page out : soup) :
  rewritten_from rest (set_href page (l_tag l) (l_name l)) out ->
  rewritten_from (l :: rest) page out.
Proof.
  intros [Hlen H]. unfold set_href in *. split.
  { by rewrite Hlen, length_alter. }
  intros i a' Hi. destruct (H i a' Hi) as (a1 & Ha1 & Ht & Hd & Hh).
  destruct (decide (l_tag l = i)) as [<-|Hne].
  - rewrite list_lookup_alter_eq in Ha1.
    destruct (page !! l_tag l) as [a|] eqn:Ea; simpl in Ha1; [|done].
    injection Ha1 as <-. exists a. repeat split; try done.
    right. destruct Hh as [Hh|(l' & ? & ? & ?)].
    + exists l. split; [by left|]. split; [done|]. by rewrite Hh.
    + exists l'. split; [by right|]. by split.
  - rewrite list_lookup_alter_ne in Ha1 by done.
    exists a1. repeat split; try done.
    destruct Hh as [Hh|(l' & ? & ? & ?)]; [by left|right].
    exists l'. repeat split; try done. by right.
Qed.

(** The second loop, for any download directory: it comes back with the
    body rewritten by some of its entries, and it changes no file other
    than the local paths of its entries. *)
Lemma loop_invariant (links : list link) (page : soup) (w : world) :
  exists out w',
    download_links_loop s download_dir links page w = (Ok out, w')
    /\ rewritten_from links page out
    /\ forall other,
         (forall l, In l links -> other <> Py.join download_dir (l_name l)) ->
         w_fs w' !! other = w_fs w !! other.
Proof.
  revert page w. induction links as [|l rest IH]; intros page w.
  - exists page, w. split; [done|]. split; [apply rewritten_refl|done].
  - destruct (decide (Py.dirname (Py.join download_dir (l_name l)) = [])) as [Hd|Hd].
    + rewrite loop_step_bare by done.
      match goal with |- context [download_links_loop _ _ _ _ ?w1] =>
        destruct (IH page w1) as (out & w' & -> & Hrw & Hfs) end.
      exists out, w'. split; [done|]. split; [by apply rewritten_weaken|].
      intros other Hother. rewrite Hfs; [done|].
      intros l' Hl'. apply Hother. by right.
    + rewrite loop_step by done.
      match goal with |- context [download_links_loop _ _ _ ?p1 ?w1] =>
        destruct (IH p1 w1) as (out & w' & -> & Hrw & Hfs) end.
      exists out, w'. split; [done|]. split; [by apply rewritten_step|].
      intros other Hother. rewrite Hfs by (intros l' Hl'; apply Hother; by right).
      rewrite download_frame by (apply Hother; by left). done.
Qed.

Lemma loop_bare_all (links : list link) (page : soup) (w : world) :
  (forall l, In l links -> Py.dirname (Py.join download_dir (l_name l)) = []) ->
  exists out,
    download_links_loop s download_dir links page w
    = (Ok page, World (w_fs w) (w_requests w) out).
Proof.
  revert w. induction links as [|l rest IH]; intros w Hd.
  - exists (w_stdout w). by destruct w.
  - rewrite loop_step_bare by (apply Hd; by left).
    match goal with |- context [download_links_loop _ _ _ _ ?w1] =>
      destruct (IH w1) as [out ->] end.
    + intros l' Hl'. apply Hd. by right.
    + by exists out.
Qed.

End TransformerShape.

(** X14. Once the body of the page has been extracted, unescaped and
    parsed (lines 318 to 326), the two loops of the transformer come back
    for every session and every download directory, and the markup they
    leave keeps the shape of the body: the same number of anchors in the
    same order, each with its text and its [download] attribute, and with
    an [href] that is either the original one or the local name of a
    download entry made for that anchor. *)
Theorem transformer_keeps_shape
    (s : session) (download_dir : str) (page : soup) (w : world) :
  exists out w',
    transform_body (Some page) download_dir s w = (Ok (Some out), w')
    /\ rewritten_from (collect_links 0 page) page out.
Proof.
  destruct (transform_run s download_dir page w) as [o ->].
  destruct (loop_invariant s download_dir (collect_links 0 page) page
              (World (w_fs w) (w_requests w) o)) as (out & w' & -> & Hrw & _).
  by exists out, w'.
Qed.

Lemma join_empty_dir (name : str) :
  Py.has_char "/"%char name = false -> Py.join [] name = name.
Proof.
  intros Hname. destruct (join_no_slash [] name Hname) as (head & E & Hhead & _).
  unfold Py.join in *. destruct (Py.startswith name (lit "/")); [done|]. done.
Qed.

(** X15. With the empty string as download directory nothing is fetched:
    every local path is a bare file name, [os.makedirs] raises on its
    empty directory part, the transformer catches that, and the body comes
    back unchanged with no request made and no file written. *)
Theorem empty_download_dir_downloads_nothing
    (s : session) (page : soup) (w : world) :
  exists w',
    transform_body (Some page) [] s w = (Ok (Some page), w')
    /\ w_fs w' = w_fs w /\ w_requests w' = w_requests w.
Proof.
  destruct (transform_run s [] page w) as [o ->].
  destruct (loop_bare_all s [] (collect_links 0 page) page
              (World (w_fs w) (w_requests w) o)) as [out ->].
  - intros l Hl.
    pose proof (safe_name_no_slash _ (collect_links_name page 0 l Hl)) as Hn.
    rewrite join_empty_dir by done. by apply dirname_bare_name.
  - eexists. split; [reflexivity|done].
Qed.

(** X16. Two download entries with the same local name: in a fresh
    directory, with a session that answers every request with one good
    response, only the first entry is fetched (the probe and the fetch for
    its URL); the second finds the file and requests nothing, and both
    anchors are rewritten to the one name. *)
Theorem same_name_fetched_once
    (s : session) (r : response) (download_dir : str) (l1 l2 : link)
    (page : soup) (w : world) :
  download_dir <> [] ->
  safe_name (l_name l1) = true ->
  l_name l2 = l_name l1 ->
  w_fs w !! Py.join download_dir (l_name l1) = None ->
  (forall h u, s h u = Ok r) -> status_error r = false -> r_length_ok r = true ->
  let run := download_links_loop s download_dir [l1; l2] page w in
  fst run = Ok (set_href (set_href page (l_tag l1) (l_name l1)) (l_tag l2) (l_name l1))
  /\ w_requests (snd run)
     = w_requests w ++ [l_url l1; pick_download_url r (l_url l1)]
  /\ w_fs (snd run) !! Py.join download_dir (l_name l1)
     = Some (concat (r_chunks r)).
Proof.
  intros Hdir Hsafe Hname Hnone Hs Hst Hlen run. unfold run.
  assert (Hd : Py.dirname (Py.join download_dir (l_name l1)) <> []).
  { apply dirname_join; [by apply safe_name_no_slash|done]. }
  rewrite loop_step by done.
  destruct (download_good_run s r (l_url l1) (Py.join download_dir (l_name l1))
              (printed (lit "          Downloading linked file: " ++ l_name l1) w)
              Hd Hnone Hs Hst Hlen) as [out ->].
  cbn [snd]. rewrite loop_step by (by rewrite Hname). rewrite Hname.
  match goal with |- context [download_file s (l_url l2) ?p ?w1] =>
    destruct (download_existing s (l_url l2) p w1) as (res & out2 & ->) end.
  { cbn [printed w_fs]. rewrite lookup_insert_eq. by eexists. }
  cbn [download_links_loop ret fst snd printed w_fs w_requests w_stdout].
  repeat split. apply lookup_insert_eq.
Qed.

Lemma same_name_fetched_once_witness :
  let r := Response 200 (lit "https://x.org/") [] None true [lit "bytes"] None in
  let l1 := Link (lit "notes.pdf") (lit "https://x.org/a/notes.pdf") 0
                 (lit "https://x.org/a/notes.pdf") in
  let l2 := Link (lit "notes.pdf") (lit "https://x.org/b/notes.pdf") 1
                 (lit "https://x.org/b/notes.pdf") in
  w_requests (snd (download_links_loop (constant_session r) (lit "dl") [l1; l2]
                     [] empty_world))
  = [lit "https://x.org/a/notes.pdf"; lit "https://x.org/a/notes.pdf"].
Proof.
  intros r l1 l2.
  apply (same_name_fetched_once (constant_session r) r (lit "dl") l1 l2 []
           empty_world);
    try reflexivity; discriminate.
Defined.

(** ** The item loop *)

Section ItemLoop.

Context (html2text : soup -> str) (s : session) (course_name module_name : str).

Lemma item_page_run (item_url : str) (w : world) :
  get_module_item_page s item_url w
  = (match s (w_requests w) item_url with
     | Ok r => if status_error r then Raise HTTPError else Ok r
     | Raise e => Raise e
     end,
     World (w_fs w) (w_requests w ++ [item_url]) (w_stdout w)).
Proof.
  unfold get_module_item_page, bind, session_get, raise_for_status.
  destruct (s (w_requests w) item_url) as [r|e]; [|done].
  by destruct (status_error r).
Qed.

Lemma process_item_unfold (item : module_item) (w : world) :
  process_item html2text s course_name module_name item w
  = (fun w1 =>
       match get_module_item_page s (url item) w1 with
       | (Raise HTTPError, w') =>
           print (lit "        Failed to fetch module item page: "
                  ++ exn_str HTTPError) w'
       | (Raise e, w') => (Raise e, w')
       | (Ok page_html, w') =>
           let redirected_url := r_url page_html in
           let module_dir := Py.join (Py.join DOWNLOAD_DIR course_name) module_name in
           match parse_file_download_link (r_soup page_html) with
           | Raise e => (Raise e, w')
           | Ok parsed =>
               match
                 match parsed with
                 | Some (file_name, download_url) =>
                     if nonempty file_name && nonempty download_url
                     then Some (file_name, download_url) else None
                 | None => None
                 end
               with
               | Some (file_name, download_url) =>
                   let fname := or_default (sanitize file_name) in
                   let save_path := Py.join module_dir fname in
                   try_except (download_file s download_url save_path)
                     (fun e => print (lit "          Error downloading " ++ fname
                                      ++ lit ": " ++ exn_str e)) w'
               | None =>
                   if Py.contains (lit "/pages/") redirected_url then
                     (do markdown <-
                        parse_canvas_page_content_and_downloads
                          html2text (r_body page_html) module_dir s;
                      match markdown with
                      | Some (c :: text) =>
                          let fname := sanitize (title item) ++ lit ".md" in
                          let save_path := Py.join module_dir fname in
                          do_ makedirs (Py.dirname save_path);
                          do_ write_text save_path (c :: text);
                          print (lit "        Canvas page saved as markdown: " ++ fname)
                      | _ =>
                          print (lit "        Canvas page not found or no content: "
                                 ++ redirected_url)
                      end) w'
                   else
                     print (lit "        Skipped (not a file or page): "
                            ++ redirected_url) w'
               end
           end
       end)
      (printed (lit "      Processing module item: " ++ title item) w).
Proof. reflexivity. Qed.

(** X17. An item whose page is answered with an error status is skipped:
    nothing is parsed, downloaded or written, and the loop goes on with
    the items that follow. *)
Theorem http_error_skips_item
    (item : module_item) (rest : list module_item) (w : world) (r : response) :
  s (w_requests w) (url item) = Ok r ->
  status_error r = true ->
  exists out,
    process_items html2text s course_name module_name (item :: rest) w
    = process_items html2text s course_name module_name rest
        (World (w_fs w) (w_requests w ++ [url item]) out).
Proof.
  intros Hs Hst. cbn [process_items]. unfold bind at 1.
  rewrite process_item_unfold. cbv beta. rewrite item_page_run.
  cbn [printed w_fs w_requests w_stdout]. rewrite Hs, Hst.
  rewrite print_run. cbn [w_fs w_requests w_stdout]. eauto.
Qed.

(** X18. A failure of the request for an item's page other than an error
    status is not caught anywhere in the loop: it ends the loop, and the
    items after it are never requested. *)
Theorem request_failure_ends_loop
    (item : module_item) (rest : list module_item) (w : world) (e : exn) :
  s (w_requests w) (url item) = Raise e ->
  e <> HTTPError ->
  exists out,
    process_items html2text s course_name module_name (item :: rest) w
    = (Raise e, World (w_fs w) (w_requests w ++ [url item]) out).
Proof.
  intros Hs He. cbn [process_items]. unfold bind at 1.
  rewrite process_item_unfold. cbv beta. rewrite item_page_run.
  cbn [printed w_fs w_requests w_stdout]. rewrite Hs.
  destruct e; try done; eauto.
Qed.

(** X19. A file page whose first anchor marked [download=true] has no
    [href] makes the item loop raise a [KeyError], after the one request
    for the page and before anything is written, even when the page holds
    usable links. *)
Theorem marked_anchor_without_href_raises
    (item : module_item) (rest : list module_item) (w : world)
    (r : response) (a : anchor) :
  s (w_requests w) (url item) = Ok r ->
  status_error r = false ->
  find_download_true (r_soup r) = Some a ->
  a_href a = None ->
  exists out,
    process_items html2text s course_name module_name (item :: rest) w
    = (Raise KeyError, World (w_fs w) (w_requests w ++ [url item]) out).
Proof.
  intros Hs Hst Hfind Hhref. cbn [process_items]. unfold bind at 1.
  rewrite process_item_unfold. cbv beta. rewrite item_page_run.
  cbn [printed w_fs w_requests w_stdout]. rewrite Hs, Hst.
  unfold parse_file_download_link, traditional_link, get_item_href.
  rewrite Hfind, Hhref. eauto.
Qed.

End ItemLoop.

Lemma http_error_skips_item_witness :
  let item := ModuleItem (lit "Gone") (lit "https://c.org/gone") in
  exists out,
    process_items (fun _ => []) not_found (lit "C") (lit "M")
      [item; ModuleItem (lit "Next") (lit "https://c.org/next")] empty_world
    = process_items (fun _ => []) not_found (lit "C") (lit "M")
        [ModuleItem (lit "Next") (lit "https://c.org/next")]
        (World ∅ [lit "https://c.org/gone"] out).
Proof.
  intros item.
  apply (http_error_skips_item (fun _ => []) not_found (lit "C") (lit "M") item
           [ModuleItem (lit "Next") (lit "https://c.org/next")] empty_world
           (Response 404 (lit "https://c.org/gone") [] None true [] None));
    reflexivity.
Defined.

Lemma request_failure_ends_loop_witness :
  exists out,
    process_items (fun _ => []) offline (lit "C") (lit "M")
      [ModuleItem (lit "A") (lit "https://c.org/a");
       ModuleItem (lit "B") (lit "https://c.org/b")] empty_world
    = (Raise ConnectionError, World ∅ [lit "https://c.org/a"] out).
Proof.
  apply (request_failure_ends_loop (fun _ => []) offline (lit "C") (lit "M")
           (ModuleItem (lit "A") (lit "https://c.org/a"))
           [ModuleItem (lit "B") (lit "https://c.org/b")] empty_world ConnectionError);
    [reflexivity|discriminate].
Defined.

Lemma marked_anchor_without_href_raises_witness :
  let a := Anchor None (Some (lit "true")) (lit "Download") in
  let page := [a; Anchor (Some (lit "/files/7/download?download_frd=1"))
                         (Some (lit "true")) (lit "Download notes.pdf")] in
  exists out,
    process_items (fun _ => []) (item_page_session (lit "https://c.org/i") page)
      (lit "C") (lit "M") [ModuleItem (lit "I") (lit "https://c.org/i")] empty_world
    = (Raise KeyError, World ∅ [lit "https://c.org/i"] out).
Proof.
  intros a page.
  apply (marked_anchor_without_href_raises (fun _ => [])
           (item_page_session (lit "https://c.org/i") page) (lit "C") (lit "M")
           (ModuleItem (lit "I") (lit "https://c.org/i")) [] empty_world
           (Response 200 (lit "https://c.org/i") page None true [] None) a);
    reflexivity.
Defined.

Section Confinement.

Context (html2text : soup -> str) (s : session).









End Confinement.

Section NormalisedPaths.






End NormalisedPaths.



(** ** The link of a file page *)

Section FilePage.

Lemma lower_char_space (c : ascii) : Py.lower_char c = " "%char -> c = " "%char.
Proof.
  destruct c as [[] [] [] [] [] [] [] []]; vm_compute; intros H;
    first [reflexivity | discriminate H].
Qed.

Lemma strip_after_prefix (t : str) :
  Py.startswith (Py.lower t) (lit "download ") = true ->
  Py.strip (drop 8 t) = Py.strip (drop 9 t).
Proof.
  intros H. apply startswith_spec in H as [rest H].
  do 9 (destruct t as [|? t]; [discriminate H|]).
  injection H as _ _ _ _ _ _ _ _ H9 _.
  apply lower_char_space in H9 as ->. reflexivity.
Qed.

(** X22. On a file page the anchor marked [download=true] whose [href]
    carries the download marker gives the link: its text without the
    leading [download ] (nine characters, in any letter case) and stripped,
    and its [href] made absolute. The slice [file_name[8:]] of the source
    keeps the blank of the prefix, and the strip that follows removes
    it. *)
Theorem marked_anchor_gives_link (page : soup) (a : anchor) (href : str) :
  find_download_true page = Some a ->
  a_href a = Some href ->
  Py.contains download_marker href = true ->
  Py.startswith (Py.lower (Py.strip (a_text a))) (lit "download ") = true ->
  parse_file_download_link page
  = Ok (Some (Py.strip (drop 9 (Py.strip (a_text a))), absolutize href)).
Proof.
  intros Hfind Hhref Hmark Hprefix.
  unfold parse_file_download_link, traditional_link, get_item_href.
  rewrite Hfind, Hhref, Hmark, Hprefix. by rewrite strip_after_prefix.
Qed.

Lemma marked_anchor_gives_link_witness :
  parse_file_download_link
    [Anchor (Some (lit "#top")) None (lit "Top");
     Anchor (Some (lit "/files/7/download?download_frd=1")) (Some (lit "true"))
            (lit "  DOWNLOAD Week 1.pdf ")]
  = Ok (Some (lit "Week 1.pdf",
              lit "https://thomasmore.instructure.com/files/7/download?download_frd=1")).
Proof.
  apply (marked_anchor_gives_link _
           (Anchor (Some (lit "/files/7/download?download_frd=1")) (Some (lit "true"))
                   (lit "  DOWNLOAD Week 1.pdf "))
           (lit "/files/7/download?download_frd=1")); reflexivity.
Defined.

(** X23. The scan of a file page returns the link of the first anchor, in
    document order, that has an [href] passing the skip test and is
    accepted by the classifier: its resolved file name and its absolute
    URL. It returns nothing exactly when no anchor is accepted. *)
Theorem scan_returns_first_accepted_anchor (page : soup) :
  scan_for_file page
  = match List.find qualifies page with
    | Some a =>
        let full_url := absolutize (default [] (a_href a)) in
        Some (get_filename_from_url_or_text full_url (Py.strip (a_text a)), full_url)
    | None => None
    end.
Proof.
  induction page as [|a rest IH]; [done|]. simpl. unfold qualifies at 1.
  destruct (a_href a) as [href|] eqn:Eh; [|done].
  destruct (skip_href href); [done|]. simpl.
  destruct (is_downloadable_file _ _); [|done]. by rewrite Eh.
Qed.

End FilePage.

(** ** Cookies *)

Section Cookies.

Lemma cookies_of_list_lookup (l : list (gmap str str)) (acc d : gmap str str)
    (name : str) :
  cookies_of_list l acc = Ok d ->
  d !! name = match last_cookie l name with
              | Some value => Some value
              | None => acc !! name
              end.
Proof.
  revert acc. induction l as [|cookie rest IH]; intros acc H; simpl in *.
  - by injection H as <-.
  - destruct (cookie !! lit "name") as [n|] eqn:En; [|done].
    destruct (cookie !! lit "value") as [v|] eqn:Ev; [|done].
    rewrite (IH _ H). destruct (last_cookie rest name); [done|].
    case_bool_decide as Hn.
    + injection Hn as ->. by rewrite lookup_insert_eq.
    + rewrite lookup_insert_ne; [done|]. congruence.
Qed.

(** X24. For a cookie file that holds an array, the value that
    [load_cookies] returns for a name is the value of the last cookie of
    the array with that name, and names that no cookie has are absent. *)
Theorem last_cookie_wins (l : list (gmap str str)) (d : gmap str str) (name : str) :
  load_cookies (CookieList l) = Ok d ->
  d !! name = last_cookie l name.
Proof.
  intros H. rewrite (cookies_of_list_lookup l ∅ d name H).
  by destruct (last_cookie l name).
Qed.

Lemma last_cookie_wins_witness :
  let c1 := {[ lit "name" := lit "sid"; lit "value" := lit "old" ]} : gmap str str in
  let c2 := {[ lit "name" := lit "sid"; lit "value" := lit "new" ]} : gmap str str in
  exists d, load_cookies (CookieList [c1; c2]) = Ok d
            /\ d !! lit "sid" = Some (lit "new").
Proof.
  intros c1 c2. eexists. split; [reflexivity|].
  rewrite (last_cookie_wins [c1; c2] _ (lit "sid") eq_refl). reflexivity.
Defined.

(** X25. For an array, [load_cookies] raises a [KeyError] exactly when
    some cookie of the array lacks [name] or [value]; otherwise it returns
    a dictionary. *)
Theorem cookie_without_key_raises (l : list (gmap str str)) :
  load_cookies (CookieList l) = Raise KeyError <->
  exists cookie, In cookie l
                 /\ (cookie !! lit "name" = None \/ cookie !! lit "value" = None).
Proof.
  unfold load_cookies. generalize (∅ : gmap str str).
  induction l as [|cookie rest IH]; intros acc; simpl.
  - split; [done|]. by intros (? & [] & _).
  - destruct (cookie !! lit "name") as [n|] eqn:En.
    + destruct (cookie !! lit "value") as [v|] eqn:Ev.
      * rewrite IH. split.
        -- intros (c & ? & ?). exists c. auto.
        -- intros (c & [<-|?] & Hc); [|by exists c].
           destruct Hc; congruence.
      * split; [|done]. intros _. exists cookie. auto.
    + split; [|done]. intros _. exists cookie. auto.
Qed.

Lemma cookie_without_key_raises_witness :
  load_cookies (CookieList [{[ lit "name" := lit "sid" ]}]) = Raise KeyError.
Proof.
  apply cookie_without_key_raises.
  exists {[ lit "name" := lit "sid" ]}. split; [by left|right]. reflexivity.
Defined.

End Cookies.

(** ** The module listing *)

Section Listing.


Lemma parse_items_fails (lis : list (option item_link)) :
  parse_items lis = None <->
  exists link, In (Some link) lis /\ il_href link = None.
Proof.
  induction lis as [|[link|] rest IH]; simpl.
  - split; [done|]. by intros (? & [] & _).
  - destruct (il_href link) as [href|] eqn:Eh.
    + destruct (parse_items rest) as [items|].
      * split; [done|]. intros (l' & [[= <-]|Hin] & Hl'); [congruence|].
        assert (Some items = None) by (apply IH; eauto). done.
      * split; [|done]. intros _.
        destruct (proj1 IH eq_refl) as (l' & ? & ?). exists l'. auto.
    + split; [|done]. intros _. exists link. auto.
  - rewrite IH. split; intros (l' & Hin & ?); exists l'.
    + auto.
    + destruct Hin as [|Hin]; [done|auto].
Qed.



(** X27. [parse_modules_and_items] fails as a whole, with the [TypeError]
    of [BASE_URL + None], exactly when some item link of some module has
    no [href]. *)
Theorem module_listing_fails_on_missing_href (divs : list module_div) :
  parse_modules_and_items divs = None <->
  exists d link, In d divs /\ In (Some link) (md_lis d) /\ il_href link = None.
Proof.
  induction divs as [|d rest IH]; simpl.
  - split; [done|]. by intros (? & ? & [] & _).
  - destruct (parse_items (md_lis d)) as [items|] eqn:Ei.
    + destruct (parse_modules_and_items rest) as [modules|].
      * split; [done|]. intros (d' & l & [<-|Hin] & Hl & Hh).
        -- assert (parse_items (md_lis d) = None) by (apply parse_items_fails; eauto).
           congruence.
        -- assert (Some modules = None) by (apply IH; eauto). done.
      * split; [|done]. intros _.
        destruct (proj1 IH eq_refl) as (d' & l & ? & ? & ?). exists d', l. auto.
    + split; [|done]. intros _.
      apply parse_items_fails in Ei as (l & ? & ?). exists d, l. auto.
Qed.

Lemma module_listing_fails_on_missing_href_witness :
  parse_modules_and_items
    [ModuleDiv (Some (lit "Week 1")) [Some (ItemLink (lit "Slides") None)]]
  = None.
Proof.
  apply module_listing_fails_on_missing_href.
  eexists _, _. split; [by left|]. split; [by left|reflexivity].
Defined.

End Listing.

(** ** Where the skip test is made, and where it is not *)

Section SkipTest.

Lemma absolutize_skipped (href : str) :
  skip_href href = true -> href <> [] -> absolutize href = href.
Proof.
  intros Hskip Hne. unfold absolutize.
  destruct href as [|c t]; [done|].
  destruct (Py.eqc c "/"%char) eqn:E.
  - apply eqc_eq in E as ->. vm_compute in Hskip. discriminate.
  - change (Py.startswith (c :: t) (lit "/")) with (Py.eqc c "/"%char && true).
    by rewrite E.
Qed.

Lemma marker_not_in_empty (href : str) :
  Py.contains download_marker href = true -> href <> [].
Proof. by intros H ->. Qed.

Lemma resolver_choice_nonempty (page : soup) (href : str) :
  resolver_choice page = Some href -> href <> [].
Proof.
  unfold resolver_choice, truthy_href, find_marked_href.
  destruct (find_download_true page) as [a|].
  - destruct (a_href a) as [[|c t]|]; try (by intros [= <-]).
    + destruct (List.find _ page) as [a'|] eqn:E; [|done].
      apply find_some in E as [_ E]. intros H. rewrite H in E.
      by apply marker_not_in_empty.
    + destruct (List.find _ page) as [a'|] eqn:E; [|done].
      apply find_some in E as [_ E]. intros H. rewrite H in E.
      by apply marker_not_in_empty.
  - destruct (List.find _ page) as [a'|] eqn:E; [|done].
    apply find_some in E as [_ E]. intros H. rewrite H in E.
    by apply marker_not_in_empty.
Qed.

Lemma pick_resolver_choice (r : response) (url href : str) :
  Py.contains download_marker (r_url r) = false ->
  Py.contains (lit "instructure.com") (r_url r)
  && (Py.contains (lit "/files/") (r_url r)
      || Py.contains (lit "/courses/") (r_url r)) = true ->
  resolver_choice (r_soup r) = Some href ->
  pick_download_url r url = absolutize href.
Proof.
  intros Hm Hp Hc. unfold pick_download_url. rewrite Hm, Hp.
  unfold resolver_choice in Hc.
  destruct (match find_download_true (r_soup r) with
            | Some dl => truthy_href dl | None => None end) as [h|].
  - by injection Hc as ->.
  - by rewrite Hc.
Qed.

(** The downloader requests what the resolver settled on. *)
Lemma download_requests_choice
    (s : session) (url save_path : str) (w : world) (r : response) (href : str) :
  Py.dirname save_path <> [] ->
  w_fs w !! save_path = None ->
  s (w_requests w) url = Ok r ->
  status_error r = false ->
  Py.contains download_marker (r_url r) = false ->
  Py.contains (lit "instructure.com") (r_url r)
  && (Py.contains (lit "/files/") (r_url r)
      || Py.contains (lit "/courses/") (r_url r)) = true ->
  resolver_choice (r_soup r) = Some href ->
  skip_href href = true ->
  w_requests (snd (download_file s url save_path w)) = w_requests w ++ [url; href].
Proof.
  intros Hdir Hnone Hs Hst Hm Hp Hc Hskip.
  destruct (download_run s url save_path w Hdir)
    as [[[c Hex] _]|(_ & u & out & Hres & _ & fs' & line & -> & _)]; [congruence|].
  destruct (resolve_run s url
              (World (w_fs w) (w_requests w)
                     (w_stdout w ++ [lit "          Resolving URL: " ++ url])))
    as [out' Hrun].
  rewrite Hrun in Hres. cbn [w_requests] in Hres. rewrite Hs, Hst in Hres.
  injection Hres as <- _. cbn [snd w_requests].
  rewrite (pick_resolver_choice r url href Hm Hp Hc).
  by rewrite absolutize_skipped by (done || by apply (resolver_choice_nonempty (r_soup r))).
Qed.

End SkipTest.

(** C10, as the code has it. The test for an empty [href], a fragment or a
    mail address is made in two loops and only there. In the body of a
    page an anchor that fails it gets no download entry and is at its
    place, unchanged, in the markup that is serialised. The scan of a file
    page gives the same result with and without such anchors, and when the
    page has no usable anchor marked [download=true] the link that is
    returned comes from an anchor that passed the test. The test is not
    made on the anchor of a file page marked [download=true]: when its
    [href] carries the download marker it is returned as the link, even if
    the [href] starts with [#] or [mailto:]. Nor is it made by the
    resolver: the [href] it settles on in the page it fetched is requested
    by the downloader, even if it starts with [#] or [mailto:]. *)
Theorem skipped_anchors_pass_through :
  (forall (s : session) (download_dir : str) (page : soup) (w : world)
          (i : nat) (a : anchor),
      page !! i = Some a -> skipped a = true ->
      (forall l, In l (collect_links 0 page) -> l_tag l <> i)
      /\ exists out w',
           transform_body (Some page) download_dir s w = (Ok (Some out), w')
           /\ out !! i = Some a)
  /\ (forall page : soup,
        scan_for_file page
        = scan_for_file (List.filter (fun a => negb (skipped a)) page))
  /\ (forall (page : soup) (name url : str),
        traditional_link page = Ok None ->
        parse_file_download_link page = Ok (Some (name, url)) ->
        skip_href url = false
        /\ exists a href, In a page /\ a_href a = Some href
                          /\ skip_href href = false /\ url = absolutize href)
  /\ (forall (page : soup) (a : anchor) (href : str),
        find_download_true page = Some a ->
        a_href a = Some href ->
        skip_href href = true ->
        Py.contains download_marker href = true ->
        exists name, parse_file_download_link page = Ok (Some (name, href)))
  /\ (forall (s : session) (url save_path : str) (w : world)
             (r : response) (href : str),
        Py.dirname save_path <> [] ->
        w_fs w !! save_path = None ->
        s (w_requests w) url = Ok r ->
        status_error r = false ->
        Py.contains download_marker (r_url r) = false ->
        Py.contains (lit "instructure.com") (r_url r)
        && (Py.contains (lit "/files/") (r_url r)
            || Py.contains (lit "/courses/") (r_url r)) = true ->
        resolver_choice (r_soup r) = Some href ->
        skip_href href = true ->
        w_requests (snd (download_file s url save_path w))
        = w_requests w ++ [url; href]).
Proof.
  split; [|split; [|split; [|split]]].
  - intros s download_dir page w i a Hi Hskip.
    assert (Hno : forall l, In l (collect_links 0 page) -> l_tag l <> i).
    { intros l Hl Htag.
      destruct (collect_links_tag _ _ _ Hl) as (j & a' & href & Ht & Hj & Hh & Hs).
      simpl in Ht. rewrite Htag in Ht. subst j. rewrite Hi in Hj.
      injection Hj as <-. unfold skipped in Hskip. rewrite Hh in Hskip. congruence. }
    split; [done|].
    destruct (transform_run s download_dir page w) as [o ->].
    destruct (download_links_loop_frame s download_dir (collect_links 0 page) page
                (World (w_fs w) (w_requests w) o)) as (page' & w' & -> & Hframe).
    exists page', w'. split; [done|]. by rewrite Hframe.
  - apply scan_for_file_ignores_skipped.
  - intros page name url Htrad Hparse. unfold parse_file_download_link in Hparse.
    rewrite Htrad in Hparse. injection Hparse as Hscan.
    destruct (scan_for_file_source _ _ _ Hscan) as (a & href & Hin & Hh & Hs & ->).
    split; [by apply skip_href_absolutize|]. by exists a, href.
  - intros page a href Hfind Hhref Hskip Hmark.
    unfold parse_file_download_link, traditional_link, get_item_href.
    rewrite Hfind, Hhref, Hmark.
    rewrite absolutize_skipped by (done || by apply marker_not_in_empty).
    eauto.
  - apply download_requests_choice.
Qed.

Lemma skipped_anchors_pass_through_witness :
  let hash := Anchor (Some (lit "#/download?download_frd=1")) None (lit "Download") in
  let notes := Anchor (Some (lit "/courses/1/files/7")) None (lit "Notes") in
  let marked := Anchor (Some (lit "mailto:a@b.org/download?download_frd=1"))
                       (Some (lit "true")) (lit "Download notes.pdf") in
  let url := lit "https://thomasmore.instructure.com/courses/1/files/7" in
  (exists out w',
     transform_body (Some [hash; notes]) (lit "dl") (serving (lit "%PDF-1.4")) empty_world
     = (Ok (Some out), w')
     /\ out !! 0 = Some hash)
  /\ skip_href url = false
  /\ (exists name, parse_file_download_link [hash; marked]
                   = Ok (Some (name, lit "mailto:a@b.org/download?download_frd=1")))
  /\ w_requests (snd (download_file (page_session [hash; notes]) url
                        (lit "dl/Notes") empty_world))
     = [url; lit "#/download?download_frd=1"].
Proof.
  intros hash notes marked url.
  destruct skipped_anchors_pass_through as (Hpage & _ & Hfile & Hmarked & Hresolver).
  split; [|split; [|split]].
  - apply (Hpage (serving (lit "%PDF-1.4")) (lit "dl") [hash; notes] empty_world 0 hash);
      reflexivity.
  - apply (Hfile [hash; notes] (lit "Notes")); vm_compute; reflexivity.
  - apply (Hmarked [hash; marked] marked); reflexivity.
  - apply (Hresolver (page_session [hash; notes]) url (lit "dl/Notes") empty_world
             (Response 200 url [hash; notes] None true [] None));
      try reflexivity. discriminate.
Defined.
